(** * Consensus engine and backtester of binance-consensus-trader

    A shallow embedding of [consensus.py] (class [ConsensusEngine]) and of
    [backtest.py] (class [Backtester]), and the properties of the
    specification that concern them.

    Conventions of the embedding.
    - Python [float] values (percentages, prices, PnL) are exact rationals
      [Q]; equality of computed numbers is [Qeq], written [==].  Rounding
      is therefore not part of the model, except in the section on
      binary64 percentages, which evaluates lines 91-92 on IEEE 754
      doubles.
    - Python [int] counters ([len]) are [nat]; [Position.leverage] is [Z].
    - Strings ([symbol], [side], [signal], trader uids) are [string], as
      in the source, which compares them with [==] and [in].
    - A Python [dict] is insertion ordered; it is an association list with
      update in place and insertion at the end.
    - True division raises [ZeroDivisionError] on a zero divisor; fallible
      code lives in the [result] monad below.
    - Console output ([print]) is not modelled. *)

From Stdlib Require Import List String Bool Arith ZArith QArith Qabs Lia Lqa.
From Stdlib Require Import Permutation Sorted.
From Stdlib Require Import Floats Uint63.
From Stdlib Require Import Ascii.
Import ListNotations.

Set Implicit Arguments.

(* ------------------------------------------------------------------ *)
(** ** Exceptions *)

Inductive exn : Set := ZeroDivisionError.

Inductive result (A : Type) : Type :=
| Ok (a : A)
| Raise (e : exn).

Arguments Ok {A} a.
Arguments Raise {A} e.

Definition bind {A B : Type} (m : result A) (k : A -> result B) : result B :=
  match m with
  | Ok a => k a
  | Raise e => Raise e
  end.

Declare Scope py_scope.
Delimit Scope py_scope with py.
Notation "x <- m ;; k" := (bind m (fun x => k))
  (at level 61, m at next level, right associativity) : py_scope.

(* ------------------------------------------------------------------ *)
(** ** Numbers *)

(** [a > b] and [a >= b] on floats. *)
Definition Qgtb (a b : Q) : bool := negb (Qle_bool a b).
Definition Qgeb (a b : Q) : bool := Qle_bool b a.

Definition Q_of_nat (n : nat) : Q := inject_Z (Z.of_nat n).

(** [a / b]: raises on a zero divisor. *)
Definition truediv (a b : Q) : result Q :=
  if Qeq_bool b 0 then Raise ZeroDivisionError else Ok (a / b).

(** [sum(xs)]: left to right from 0. *)
Definition sum (xs : list Q) : Q := fold_left Qplus xs 0.
Definition sumZ (xs : list Z) : Z := fold_left Z.add xs 0%Z.

(** Truthiness of a list: [if xs]. *)
Definition truthy {A : Type} (xs : list A) : bool :=
  match xs with [] => false | _ :: _ => true end.

(** [s in xs] for a list of strings. *)
Definition str_in (s : string) (xs : list string) : bool :=
  existsb (String.eqb s) xs.

(* ------------------------------------------------------------------ *)
(** ** Insertion ordered dictionaries *)

Section Dict.
Variable V : Type.

Definition dict : Type := list (string * V).

(** [d.get(k)] *)
Fixpoint dict_get (k : string) (d : dict) : option V :=
  match d with
  | [] => None
  | (k', v) :: d' => if String.eqb k k' then Some v else dict_get k d'
  end.

(** [d[k] = v]: an existing key keeps its place. *)
Fixpoint dict_set (k : string) (v : V) (d : dict) : dict :=
  match d with
  | [] => [(k, v)]
  | (k', v') :: d' =>
      if String.eqb k k' then (k', v) :: d' else (k', v') :: dict_set k v d'
  end.

(** [f(d[k])] on a [defaultdict] with factory value [dflt], for an [f]
    that mutates the entry: a missing key is first inserted at the
    end. *)
Fixpoint dict_modify (dflt : V) (k : string) (f : V -> V) (d : dict) : dict :=
  match d with
  | [] => [(k, f dflt)]
  | (k', v) :: d' =>
      if String.eqb k k' then (k', f v) :: d'
      else (k', v) :: dict_modify dflt k f d'
  end.

Definition keys (d : dict) : list string := map fst d.
End Dict.

(* ------------------------------------------------------------------ *)
(** ** Data classes of [scraper.py] and [consensus.py] *)

Module Trader.
Record t : Type := mk {
  encrypted_uid : string;
  nick_name : string;
  rank : Z;
  roi : Q;
  win_rate : Q;
  pnl : Q;
  following_count : Z;
  trade_period_days : Z
}.
End Trader.

Module Position.
Record t : Type := mk {
  symbol : string;
  side : string;
  entry_price : Q;
  mark_price : Q;
  pnl : Q;
  roe : Q;
  leverage : Z;
  update_time : Z
}.
End Position.

Module SymbolConsensus.
Record t : Type := mk {
  symbol : string;
  long_count : nat;
  short_count : nat;
  total_count : nat;
  long_percent : Q;
  short_percent : Q;
  avg_leverage_long : Q;
  avg_leverage_short : Q;
  total_long_pnl : Q;
  total_short_pnl : Q;
  signal : string
}.
End SymbolConsensus.

(** The value of the [defaultdict] factory in [calculate_consensus]. *)
Module SymbolData.
Record t : Type := mk {
  longs : list string;
  shorts : list string;
  long_pnl : list Q;
  short_pnl : list Q;
  long_leverage : list Z;
  short_leverage : list Z
}.

Definition empty : t := mk [] [] [] [] [] [].

Definition append_longs (x : string) (d : t) : t :=
  mk (longs d ++ [x]) (shorts d) (long_pnl d) (short_pnl d)
     (long_leverage d) (short_leverage d).
Definition append_long_pnl (x : Q) (d : t) : t :=
  mk (longs d) (shorts d) (long_pnl d ++ [x]) (short_pnl d)
     (long_leverage d) (short_leverage d).
Definition append_long_leverage (x : Z) (d : t) : t :=
  mk (longs d) (shorts d) (long_pnl d) (short_pnl d)
     (long_leverage d ++ [x]) (short_leverage d).
Definition append_shorts (x : string) (d : t) : t :=
  mk (longs d) (shorts d ++ [x]) (long_pnl d) (short_pnl d)
     (long_leverage d) (short_leverage d).
Definition append_short_pnl (x : Q) (d : t) : t :=
  mk (longs d) (shorts d) (long_pnl d) (short_pnl d ++ [x])
     (long_leverage d) (short_leverage d).
Definition append_short_leverage (x : Z) (d : t) : t :=
  mk (longs d) (shorts d) (long_pnl d) (short_pnl d)
     (long_leverage d) (short_leverage d ++ [x]).
End SymbolData.

(* ------------------------------------------------------------------ *)
(** ** [list.sort(key=..., reverse=True)]

    Python's sort is stable, also with [reverse=True]: elements with equal
    keys keep their order.  A stable sort has one possible output
    ([stable_sort_unique] below), so any stable algorithm models it; this
    one is insertion sort. *)

Section Sort.
Variable A : Type.
Variable key : A -> nat.

Fixpoint insert_desc (x : A) (l : list A) : list A :=
  match l with
  | [] => [x]
  | y :: l' =>
      if key y <=? key x then x :: y :: l' else y :: insert_desc x l'
  end.

Definition sort_reverse (l : list A) : list A :=
  fold_right insert_desc [] l.

(** Descending by key, and the elements of one key in their order. *)
Definition descending : list A -> Prop :=
  StronglySorted (fun a b => key b <= key a)%nat.

Definition with_key (k : nat) (l : list A) : list A :=
  filter (fun a => key a =? k)%nat l.
End Sort.

(* ------------------------------------------------------------------ *)
(** ** [ConsensusEngine] *)

Module ConsensusEngine.
Record t : Type := mk { min_consensus : Q }.
End ConsensusEngine.

Open Scope string_scope.
Open Scope list_scope.
Open Scope Q_scope.
Open Scope py_scope.

Definition _get_signal (self : ConsensusEngine.t)
    (long_percent short_percent : Q) : string :=
  if Qgeb long_percent 70 then "STRONG_BUY"
  else if Qgeb long_percent (ConsensusEngine.min_consensus self) then "BUY"
  else if Qgeb short_percent 70 then "STRONG_SELL"
  else if Qgeb short_percent (ConsensusEngine.min_consensus self) then "SELL"
  else "NEUTRAL".

(** [tracked_symbols and symbol not in tracked_symbols]; [None] and the
    empty list are both falsy. *)
Definition filtered_out (tracked_symbols : option (list string))
    (symbol : string) : bool :=
  match tracked_symbols with
  | None => false
  | Some ts => truthy ts && negb (str_in symbol ts)
  end.

(** Body of the inner grouping loop (lines 64-78). *)
Definition group_position (tracked_symbols : option (list string))
    (trader_uid : string) (symbol_data : dict SymbolData.t)
    (pos : Position.t) : dict SymbolData.t :=
  let symbol := Position.symbol pos in
  let at_symbol := dict_modify SymbolData.empty symbol in
  if filtered_out tracked_symbols symbol then symbol_data
  else if String.eqb (Position.side pos) "LONG" then
    let sd1 := at_symbol (SymbolData.append_longs trader_uid) symbol_data in
    let sd2 := at_symbol (SymbolData.append_long_pnl (Position.pnl pos)) sd1 in
    at_symbol (SymbolData.append_long_leverage (Position.leverage pos)) sd2
  else
    let sd1 := at_symbol (SymbolData.append_shorts trader_uid) symbol_data in
    let sd2 := at_symbol (SymbolData.append_short_pnl (Position.pnl pos)) sd1 in
    at_symbol (SymbolData.append_short_leverage (Position.leverage pos)) sd2.

(** The grouping loops (lines 63-78). *)
Definition group_positions (tracked_symbols : option (list string))
    (positions : dict (list Position.t)) : dict SymbolData.t :=
  fold_left
    (fun symbol_data item =>
       fold_left (group_position tracked_symbols (fst item)) (snd item)
                 symbol_data)
    positions [].

(** [sum(xs) / len(xs) if xs else 0] on a list of leverages. *)
Definition avg_leverage (xs : list Z) : result Q :=
  if truthy xs then truediv (inject_Z (sumZ xs)) (Q_of_nat (List.length xs))
  else Ok 0.

(** The loop over [symbol_data.items()] (lines 83-118). *)
Fixpoint build_consensus (self : ConsensusEngine.t)
    (items : dict SymbolData.t)
    (consensus_list : list SymbolConsensus.t)
    : result (list SymbolConsensus.t) :=
  match items with
  | [] => Ok consensus_list
  | (symbol, data) :: rest =>
      let long_count := List.length (SymbolData.longs data) in
      let short_count := List.length (SymbolData.shorts data) in
      let total := (long_count + short_count)%nat in
      if (total =? 0)%nat then build_consensus self rest consensus_list
      else
        lq <- truediv (Q_of_nat long_count) (Q_of_nat total) ;;
        let long_percent := lq * 100 in
        sq <- truediv (Q_of_nat short_count) (Q_of_nat total) ;;
        let short_percent := sq * 100 in
        avg_leverage_long <- avg_leverage (SymbolData.long_leverage data) ;;
        avg_leverage_short <- avg_leverage (SymbolData.short_leverage data) ;;
        let total_long_pnl := sum (SymbolData.long_pnl data) in
        let total_short_pnl := sum (SymbolData.short_pnl data) in
        let signal := _get_signal self long_percent short_percent in
        let consensus :=
          SymbolConsensus.mk symbol long_count short_count total
            long_percent short_percent avg_leverage_long avg_leverage_short
            total_long_pnl total_short_pnl signal in
        build_consensus self rest (consensus_list ++ [consensus])
  end.

Definition calculate_consensus (self : ConsensusEngine.t)
    (traders : list Trader.t) (positions : dict (list Position.t))
    (tracked_symbols : option (list string))
    : result (list SymbolConsensus.t) :=
  let symbol_data := group_positions tracked_symbols positions in
  consensus_list <- build_consensus self symbol_data [] ;;
  Ok (sort_reverse SymbolConsensus.total_count consensus_list).

Definition actionable (signal : string) : bool :=
  str_in signal ["STRONG_BUY"; "BUY"; "STRONG_SELL"; "SELL"].

Definition get_strong_signals (consensus_list : list SymbolConsensus.t)
    : list SymbolConsensus.t :=
  filter (fun c => actionable (SymbolConsensus.signal c)) consensus_list.

(* ------------------------------------------------------------------ *)
(** ** Data classes of [test_data.py] and [backtest.py]

    A [datetime] is a number of seconds. *)

Module MockTrader.
Record t : Type := mk {
  encrypted_uid : string;
  nick_name : string;
  rank : Z;
  roi : Q;
  win_rate : Q
}.
End MockTrader.

Module MockPosition.
Record t : Type := mk {
  symbol : string;
  side : string;
  entry_price : Q;
  exit_price : Q;
  entry_time : Z;
  exit_time : Z;
  pnl : Q
}.
End MockPosition.

Module TestScenario.
Record t : Type := mk {
  name : string;
  description : string;
  date : Z;
  traders : list MockTrader.t;
  positions : dict (list MockPosition.t);
  expected_consensus : dict Q
}.
End TestScenario.

Module Trade.
Record t : Type := mk {
  symbol : string;
  side : string;
  entry_price : Q;
  exit_price : Q;
  entry_time : Z;
  exit_time : Z;
  pnl : Q;
  pnl_percent : Q;
  signal : string
}.
End Trade.

Module BacktestResult.
Record t : Type := mk {
  total_trades : nat;
  winning_trades : nat;
  losing_trades : nat;
  win_rate : Q;
  total_pnl : Q;
  avg_profit : Q;
  avg_loss : Q;
  max_drawdown : Q;
  trades : list Trade.t
}.
End BacktestResult.

(* ------------------------------------------------------------------ *)
(** ** [Backtester] *)

Module Backtester.
Record t : Type := mk {
  min_consensus : Q;
  engine : ConsensusEngine.t
}.

(** [__init__] *)
Definition init (min_consensus : Q) : t :=
  mk min_consensus (ConsensusEngine.mk min_consensus).
End Backtester.

(** Lines 75-84 and 90-99: the records handed to the engine. *)
Definition convert_trader (mock_trader : MockTrader.t) : Trader.t :=
  Trader.mk (MockTrader.encrypted_uid mock_trader)
    (MockTrader.nick_name mock_trader) (MockTrader.rank mock_trader)
    (MockTrader.roi mock_trader) (MockTrader.win_rate mock_trader)
    0 0%Z 30%Z.

Definition convert_position (mock_pos : MockPosition.t) : Position.t :=
  Position.mk (MockPosition.symbol mock_pos) (MockPosition.side mock_pos)
    (MockPosition.entry_price mock_pos) (MockPosition.exit_price mock_pos)
    (MockPosition.pnl mock_pos) 0 1%Z 0%Z.

(** [d.get(k, [])] *)
Definition dict_get_list {A : Type} (k : string) (d : dict (list A)) : list A :=
  match dict_get k d with
  | Some l => l
  | None => []
  end.

(** The conversion loop (lines 74-103), on the pair
    [(traders, positions)]. *)
Definition convert_step (scenario : TestScenario.t)
    (st : list Trader.t * dict (list Position.t))
    (mock_trader : MockTrader.t) : list Trader.t * dict (list Position.t) :=
  let trader := convert_trader mock_trader in
  let traders := fst st ++ [trader] in
  let trader_positions :=
    map convert_position
      (dict_get_list (MockTrader.encrypted_uid mock_trader)
         (TestScenario.positions scenario)) in
  if truthy trader_positions then
    (traders,
     dict_set (MockTrader.encrypted_uid mock_trader) trader_positions (snd st))
  else (traders, snd st).

Definition convert_scenario (scenario : TestScenario.t)
    : list Trader.t * dict (list Position.t) :=
  fold_left (convert_step scenario) (TestScenario.traders scenario) ([], []).

(** Lines 116-120. *)
Definition symbol_positions_of (positions : dict (list Position.t))
    (symbol : string) : list Position.t :=
  flat_map
    (fun item =>
       filter (fun pos => String.eqb (Position.symbol pos) symbol) (snd item))
    positions.

(** Lines 130-142: side, pnl and pnl_pct of the trade, or [None] for
    [continue]. *)
Definition trade_direction (signal : string) (avg_entry avg_exit : Q)
    : result (option (string * Q * Q)) :=
  if str_in signal ["STRONG_BUY"; "BUY"] then
    let pnl := avg_exit - avg_entry in
    q <- truediv (avg_exit - avg_entry) avg_entry ;;
    Ok (Some ("LONG", pnl, q * 100))
  else if str_in signal ["STRONG_SELL"; "SELL"] then
    let pnl := avg_entry - avg_exit in
    q <- truediv (avg_entry - avg_exit) avg_entry ;;
    Ok (Some ("SHORT", pnl, q * 100))
  else Ok None.

(** The loop over [consensus_list] (lines 114-155). *)
Fixpoint make_trades (date : Z) (positions : dict (list Position.t))
    (consensus_list : list SymbolConsensus.t) (trades : list Trade.t)
    : result (list Trade.t) :=
  match consensus_list with
  | [] => Ok trades
  | cons_ :: rest =>
      let symbol_positions :=
        symbol_positions_of positions (SymbolConsensus.symbol cons_) in
      if negb (truthy symbol_positions) then
        make_trades date positions rest trades
      else
        avg_entry <- truediv (sum (map Position.entry_price symbol_positions))
                       (Q_of_nat (List.length symbol_positions)) ;;
        avg_exit <- truediv (sum (map Position.mark_price symbol_positions))
                      (Q_of_nat (List.length symbol_positions)) ;;
        dir <- trade_direction (SymbolConsensus.signal cons_)
                 avg_entry avg_exit ;;
        match dir with
        | None => make_trades date positions rest trades
        | Some (side, pnl, pnl_pct) =>
            let trade :=
              Trade.mk (SymbolConsensus.symbol cons_) side avg_entry avg_exit
                date date pnl pnl_pct (SymbolConsensus.signal cons_) in
            make_trades date positions rest (trades ++ [trade])
        end
  end.

Definition run_scenario (self : Backtester.t) (scenario : TestScenario.t)
    : result (list Trade.t) :=
  let st := convert_scenario scenario in
  let traders := fst st in
  let positions := snd st in
  consensus_list <-
    calculate_consensus (Backtester.engine self) traders positions None ;;
  make_trades (TestScenario.date scenario) positions consensus_list [].

(** Lines 189-197, on the pair [(max_dd, peak)]. *)
Definition drawdown_step (st : Q * Q) (t : Trade.t) : Q * Q :=
  let max_dd := fst st in
  let peak := snd st in
  if Qgtb (Trade.pnl t) 0 then (max_dd, peak + Trade.pnl t)
  else
    let dd := Qabs (Trade.pnl t) in
    if Qgtb dd max_dd then (dd, peak) else (max_dd, peak).

(** [sum(t.pnl for t in ts) / len(ts) if ts else 0] *)
Definition avg_pnl (ts : list Trade.t) : result Q :=
  if truthy ts then
    truediv (sum (map Trade.pnl ts)) (Q_of_nat (List.length ts))
  else Ok 0.

Definition _calculate_metrics (self : Backtester.t) (trades : list Trade.t)
    : result BacktestResult.t :=
  if negb (truthy trades) then Ok (BacktestResult.mk 0 0 0 0 0 0 0 0 [])
  else
    let winning := filter (fun t => Qgtb (Trade.pnl t) 0) trades in
    let losing := filter (fun t => Qle_bool (Trade.pnl t) 0) trades in
    let total_pnl := sum (map Trade.pnl trades) in
    avg_profit <- avg_pnl winning ;;
    avg_loss <- avg_pnl losing ;;
    let max_dd := fst (fold_left drawdown_step trades (0, 0)) in
    win_rate <-
      (if truthy trades then
         q <- truediv (Q_of_nat (List.length winning))
                (Q_of_nat (List.length trades)) ;;
         Ok (q * 100)
       else Ok 0) ;;
    Ok (BacktestResult.mk (List.length trades) (List.length winning)
          (List.length losing) win_rate total_pnl avg_profit avg_loss
          max_dd trades).

(** [run_all_scenarios], with the scenarios of [get_all_scenarios] as an
    argument. *)
Fixpoint run_scenarios (self : Backtester.t) (scenarios : list TestScenario.t)
    (all_trades : list Trade.t) : result (list Trade.t) :=
  match scenarios with
  | [] => Ok all_trades
  | scenario :: rest =>
      trades <- run_scenario self scenario ;;
      run_scenarios self rest (all_trades ++ trades)
  end.

Definition run_all_scenarios (self : Backtester.t)
    (scenarios : list TestScenario.t) : result BacktestResult.t :=
  all_trades <- run_scenarios self scenarios [] ;;
  _calculate_metrics self all_trades.

(* ------------------------------------------------------------------ *)
(** ** Scenarios of [test_data.py]

    The clock is not modelled: every [datetime] is 0.  The descriptions,
    which no computation reads, are left empty. *)

Definition get_scenario_1_btc_bull_run : TestScenario.t :=
  let traders :=
    [MockTrader.mk "t1" "ProTrader1" 1 250 70;
     MockTrader.mk "t2" "CryptoKing" 2 200 65;
     MockTrader.mk "t3" "WhaleHunter" 3 180 62;
     MockTrader.mk "t4" "AlphaBot" 4 150 58;
     MockTrader.mk "t5" "TrendMaster" 5 140 60] in
  let positions :=
    [("t1", [MockPosition.mk "BTCUSDT" "LONG" 40000 44000 0 0 10]);
     ("t2", [MockPosition.mk "BTCUSDT" "LONG" 40200 44000 0 0 9.45]);
     ("t3", [MockPosition.mk "BTCUSDT" "LONG" 39800 44000 0 0 10.55]);
     ("t4", [MockPosition.mk "BTCUSDT" "SHORT" 41000 44000 0 0 (-7.3)]);
     ("t5", [MockPosition.mk "BTCUSDT" "LONG" 40500 44000 0 0 8.6])] in
  TestScenario.mk "BTC Bull Run" "" 0 traders positions [("BTCUSDT", 80)].

Definition get_scenario_3_mixed_signals : TestScenario.t :=
  let traders :=
    [MockTrader.mk "t1" "BullA" 1 200 60;
     MockTrader.mk "t2" "BearA" 2 190 58;
     MockTrader.mk "t3" "BullB" 3 180 55;
     MockTrader.mk "t4" "BearB" 4 170 57;
     MockTrader.mk "t5" "BullC" 5 160 54;
     MockTrader.mk "t6" "BearC" 6 150 56] in
  let positions :=
    [("t1", [MockPosition.mk "SOLUSDT" "LONG" 100 98 0 0 (-2)]);
     ("t2", [MockPosition.mk "SOLUSDT" "SHORT" 102 98 0 0 3.9]);
     ("t3", [MockPosition.mk "SOLUSDT" "LONG" 101 98 0 0 (-3)]);
     ("t4", [MockPosition.mk "SOLUSDT" "SHORT" 103 98 0 0 4.9]);
     ("t5", [MockPosition.mk "SOLUSDT" "LONG" 99 98 0 0 (-1)]);
     ("t6", [MockPosition.mk "SOLUSDT" "SHORT" 100 98 0 0 2])] in
  TestScenario.mk "Mixed Signals" "" 0 traders positions [("SOLUSDT", 50)].

(* ------------------------------------------------------------------ *)
(** ** Reading a snapshot

    The vocabulary in which the properties are stated: the positions of a
    snapshot as a sequence, and what belongs to a symbol and a side. *)

(** The (trader uid, position) pairs in the iteration order of lines
    63-64. *)
Definition all_positions (positions : dict (list Position.t))
    : list (string * Position.t) :=
  flat_map (fun item => map (pair (fst item)) (snd item)) positions.

(** The pairs that pass the test of line 68. *)
Definition kept (tracked_symbols : option (list string))
    (ps : list (string * Position.t)) : list (string * Position.t) :=
  filter
    (fun up => negb (filtered_out tracked_symbols (Position.symbol (snd up))))
    ps.

(** One iteration of the inner loop, on a pair. *)
Definition group_pair (tracked_symbols : option (list string))
    (symbol_data : dict SymbolData.t) (up : string * Position.t)
    : dict SymbolData.t :=
  group_position tracked_symbols (fst up) symbol_data (snd up).

Definition symbol_of (up : string * Position.t) : string :=
  Position.symbol (snd up).

Definition is_long (up : string * Position.t) : bool :=
  String.eqb (Position.side (snd up)) "LONG".

Definition on_symbol (symbol : string) (up : string * Position.t) : bool :=
  String.eqb (symbol_of up) symbol.

Definition longs_of (symbol : string) (ps : list (string * Position.t))
    : list (string * Position.t) :=
  filter (fun up => on_symbol symbol up && is_long up) ps.

Definition shorts_of (symbol : string) (ps : list (string * Position.t))
    : list (string * Position.t) :=
  filter (fun up => on_symbol symbol up && negb (is_long up)) ps.

Definition pnl_of (up : string * Position.t) : Q := Position.pnl (snd up).
Definition leverage_of (up : string * Position.t) : Z :=
  Position.leverage (snd up).

(** The distinct elements of a list, in the order of their first
    occurrence. *)
Fixpoint first_seen (l : list string) : list string :=
  match l with
  | [] => []
  | s :: l' => s :: filter (fun s' => negb (String.eqb s' s)) (first_seen l')
  end.

(** What the grouping loop has accumulated for a symbol once the pairs
    [ps] are consumed. *)
Definition data_of (ps : list (string * Position.t)) (symbol : string)
    : SymbolData.t :=
  SymbolData.mk
    (map fst (longs_of symbol ps)) (map fst (shorts_of symbol ps))
    (map pnl_of (longs_of symbol ps)) (map pnl_of (shorts_of symbol ps))
    (map leverage_of (longs_of symbol ps))
    (map leverage_of (shorts_of symbol ps)).

(** Mean of a list of leverages, 0 for the empty list. *)
Definition mean_leverage (xs : list Z) : Q :=
  match xs with
  | [] => 0
  | _ :: _ => inject_Z (sumZ xs) / Q_of_nat (List.length xs)
  end.

(** The record that lines 84-117 build for a symbol of [ps]. *)
Definition consensus_of (self : ConsensusEngine.t)
    (ps : list (string * Position.t)) (symbol : string) : SymbolConsensus.t :=
  let long_count := List.length (longs_of symbol ps) in
  let short_count := List.length (shorts_of symbol ps) in
  let total := (long_count + short_count)%nat in
  let long_percent := Q_of_nat long_count / Q_of_nat total * 100 in
  let short_percent := Q_of_nat short_count / Q_of_nat total * 100 in
  SymbolConsensus.mk symbol long_count short_count total
    long_percent short_percent
    (mean_leverage (map leverage_of (longs_of symbol ps)))
    (mean_leverage (map leverage_of (shorts_of symbol ps)))
    (sum (map pnl_of (longs_of symbol ps)))
    (sum (map pnl_of (shorts_of symbol ps)))
    (_get_signal self long_percent short_percent).

(** The records of a snapshot before sorting, and the output. *)
Definition consensus_records (self : ConsensusEngine.t)
    (tracked_symbols : option (list string))
    (positions : dict (list Position.t)) : list SymbolConsensus.t :=
  let ps := kept tracked_symbols (all_positions positions) in
  map (consensus_of self ps) (first_seen (map symbol_of ps)).

(** Mean PnL of a list of trades, 0 for the empty list. *)
Definition mean_pnl (ts : list Trade.t) : Q :=
  match ts with
  | [] => 0
  | _ :: _ => sum (map Trade.pnl ts) / Q_of_nat (List.length ts)
  end.

(** Winners and losers, as propositions. *)
Definition winner (t : Trade.t) : Prop := 0 < Trade.pnl t.
Definition loser (t : Trade.t) : Prop := Trade.pnl t <= 0.

(** ** Reading a scenario *)

(** The positions that the conversion loop gives to a trader uid. *)
Definition converted (scenario : TestScenario.t) (uid : string)
    : list Position.t :=
  map convert_position (dict_get_list uid (TestScenario.positions scenario)).

(** The positions of the traders listed in the scenario, each trader
    once, in the order of the list. *)
Definition listed_positions (scenario : TestScenario.t)
    : list MockPosition.t :=
  flat_map
    (fun uid => dict_get_list uid (TestScenario.positions scenario))
    (first_seen (map MockTrader.encrypted_uid (TestScenario.traders scenario))).

(** Those on a symbol, whatever their side. *)
Definition positions_on (scenario : TestScenario.t) (symbol : string)
    : list MockPosition.t :=
  filter (fun mp => String.eqb (MockPosition.symbol mp) symbol)
         (listed_positions scenario).

(** Arithmetic mean. *)
Definition mean (xs : list Q) : Q := sum xs / Q_of_nat (List.length xs).

Definition avg_entry (scenario : TestScenario.t) (symbol : string) : Q :=
  mean (map MockPosition.entry_price (positions_on scenario symbol)).

Definition avg_exit (scenario : TestScenario.t) (symbol : string) : Q :=
  mean (map MockPosition.exit_price (positions_on scenario symbol)).

(** The trade that lines 126-154 build for a record with an actionable
    signal. *)
Definition trade_of (date : Z) (positions : dict (list Position.t))
    (c : SymbolConsensus.t) : Trade.t :=
  let symbol_positions :=
    symbol_positions_of positions (SymbolConsensus.symbol c) in
  let e := mean (map Position.entry_price symbol_positions) in
  let x := mean (map Position.mark_price symbol_positions) in
  if str_in (SymbolConsensus.signal c) ["STRONG_BUY"; "BUY"] then
    Trade.mk (SymbolConsensus.symbol c) "LONG" e x date date
      (x - e) ((x - e) / e * 100) (SymbolConsensus.signal c)
  else
    Trade.mk (SymbolConsensus.symbol c) "SHORT" e x date date
      (e - x) ((e - x) / e * 100) (SymbolConsensus.signal c).

(** What the specification asks of the trade of a record. *)
Definition trade_matches (scenario : TestScenario.t)
    (c : SymbolConsensus.t) (t : Trade.t) : Prop :=
  Trade.symbol t = SymbolConsensus.symbol c /\
  Trade.signal t = SymbolConsensus.signal c /\
  Trade.entry_price t == avg_entry scenario (SymbolConsensus.symbol c) /\
  Trade.exit_price t == avg_exit scenario (SymbolConsensus.symbol c) /\
  (In (SymbolConsensus.signal c) ["STRONG_BUY"; "BUY"] ->
   Trade.side t = "LONG" /\
   Trade.pnl t == Trade.exit_price t - Trade.entry_price t) /\
  (In (SymbolConsensus.signal c) ["STRONG_SELL"; "SELL"] ->
   Trade.side t = "SHORT" /\
   Trade.pnl t == Trade.entry_price t - Trade.exit_price t) /\
  Trade.pnl_percent t == Trade.pnl t / Trade.entry_price t * 100.

(** ** Percentages in binary64

    Lines 91-92 on IEEE 754 doubles, for counts below 2^53, which convert
    to [float] exactly. *)

Definition float_of_nat (n : nat) : float :=
  PrimFloat.of_uint63 (Uint63.of_Z (Z.of_nat n)).

Definition percent64 (count total : nat) : float :=
  PrimFloat.mul (PrimFloat.div (float_of_nat count) (float_of_nat total))
                (float_of_nat 100).

(** [|long_percent + short_percent - 100|] *)
Definition deviation64 (long_count short_count : nat) : float :=
  let total := (long_count + short_count)%nat in
  PrimFloat.abs
    (PrimFloat.sub
       (PrimFloat.add (percent64 long_count total)
                      (percent64 short_count total))
       (float_of_nat 100)).

(** One unit in the last place of 100. *)
Definition ulp100 : float :=
  PrimFloat.div (float_of_nat 1) (PrimFloat.of_uint63 (Uint63.of_Z (2 ^ 46)%Z)).

Definition within_ulp (long_count short_count : nat) : bool :=
  PrimFloat.leb (deviation64 long_count short_count) ulp100.

Definition all_within (n : nat) : bool :=
  forallb
    (fun total =>
       forallb (fun long_count => within_ulp long_count (total - long_count))
               (seq 0 (S total)))
    (seq 1 n).

(** The classifier as the specification words it: five rules, the first
    that applies wins. *)
Definition classify (long_percent short_percent T : Q) : string :=
  if Qle_bool 70 long_percent then "STRONG_BUY"
  else if Qle_bool T long_percent && negb (Qle_bool 70 long_percent) then "BUY"
  else if Qle_bool 70 short_percent then "STRONG_SELL"
  else if Qle_bool T short_percent && negb (Qle_bool 70 short_percent)
  then "SELL"
  else "NEUTRAL".

(** A snapshot without the positions whose symbol is not in [allow]. *)
Definition restrict_to (allow : list string)
    (positions : dict (list Position.t)) : dict (list Position.t) :=
  map (fun item =>
         (fst item,
          filter (fun pos => str_in (Position.symbol pos) allow) (snd item)))
      positions.

(* ------------------------------------------------------------------ *)
(** ** [config.py] and the call of [main.py]

    The process environment is a dictionary of strings. *)

(** [os.getenv(key, default)] *)
Definition getenv (environ : dict string) (key default : string) : string :=
  match dict_get key environ with
  | Some value => value
  | None => default
  end.

(** [s.split(sep)] for a separator of one character: the pieces between
    the separators, empty pieces included. *)
Fixpoint str_split (sep : ascii) (s : string) : list string :=
  match s with
  | EmptyString => [EmptyString]
  | String c rest =>
      if Ascii.eqb c sep then EmptyString :: str_split sep rest
      else
        match str_split sep rest with
        | [] => [String c EmptyString]
        | piece :: pieces => String c piece :: pieces
        end
  end.

(** Line 29 of [config.py]. *)
Definition TRACKED_SYMBOLS (environ : dict string) : list string :=
  str_split ","%char
    (getenv environ "TRACKED_SYMBOLS"
       "BTC,ETH,SOL,BNB,XRP,DOGE,TON,WLD,LINK,MATIC").

(** Lines 68-72 of [main.py]: the consensus of a scan. *)
Definition scan_consensus (environ : dict string) (engine : ConsensusEngine.t)
    (traders : list Trader.t) (positions : dict (list Position.t))
    : result (list SymbolConsensus.t) :=
  calculate_consensus engine traders positions
    (Some (TRACKED_SYMBOLS environ)).

(* ------------------------------------------------------------------ *)
(** ** [BinanceScraper.get_all_positions]

    The network is the answers of [get_trader_positions], which returns a
    list whatever happens: [answer i uid] is what call number [i] returns
    for [uid].  The state of the loop is the dictionary and the number of
    calls of [time.sleep]. *)

Fixpoint get_all_positions_from (answer : nat -> string -> list Position.t)
    (n_traders : nat) (i : nat) (traders : list Trader.t)
    (st : dict (list Position.t) * nat) : dict (list Position.t) * nat :=
  match traders with
  | [] => st
  | trader :: rest =>
      let positions := answer i (Trader.encrypted_uid trader) in
      let collected :=
        if truthy positions then
          dict_set (Trader.encrypted_uid trader) positions (fst st)
        else fst st in
      let sleeps :=
        if (Z.of_nat i <? Z.of_nat n_traders - 1)%Z then S (snd st)
        else snd st in
      get_all_positions_from answer n_traders (S i) rest (collected, sleeps)
  end.

Definition get_all_positions (answer : nat -> string -> list Position.t)
    (traders : list Trader.t) : dict (list Position.t) * nat :=
  get_all_positions_from answer (List.length traders) 0 traders ([], 0%nat).

(** What the loop keeps true of the dictionary, [traders] being the whole
    list and [seen] the number of traders handled. *)
Definition collected_ok (answer : nat -> string -> list Position.t)
    (traders : list Trader.t) (seen : nat)
    (d : dict (list Position.t)) : Prop :=
  NoDup (keys d) /\
  (forall k v, In (k, v) d ->
     v <> [] /\
     exists j trader,
       nth_error traders j = Some trader /\
       Trader.encrypted_uid trader = k /\ answer j k = v) /\
  (forall j trader,
     (j < seen)%nat -> nth_error traders j = Some trader ->
     answer j (Trader.encrypted_uid trader) <> [] ->
     In (Trader.encrypted_uid trader) (keys d)).

(* ------------------------------------------------------------------ *)
(** ** [Backtester.print_report]

    Lines 230-232: the risk/reward ratio that is printed, if any. *)

Definition risk_reward (report : BacktestResult.t) : result (option Q) :=
  if negb (Qeq_bool (BacktestResult.avg_loss report) 0) then
    q <- truediv (BacktestResult.avg_profit report)
           (BacktestResult.avg_loss report) ;;
    Ok (Some (Qabs q))
  else Ok None.

(* ------------------------------------------------------------------ *)
(** * Lemmas on the embedding *)

(** ** Numbers and the [result] monad *)

Lemma Qgeb_true (a b : Q) : Qgeb a b = true <-> b <= a.
Proof. unfold Qgeb. apply Qle_bool_iff. Qed.

Lemma Qgeb_false (a b : Q) : Qgeb a b = false <-> a < b.
Proof.
  unfold Qgeb. split; intro H.
  - apply Qnot_le_lt. intro Hle. apply Qle_bool_iff in Hle. congruence.
  - destruct (Qle_bool b a) eqn:E; [|reflexivity].
    apply Qle_bool_iff in E. exfalso. apply (Qlt_not_le _ _ H E).
Qed.

Lemma Qgtb_true (a b : Q) : Qgtb a b = true <-> b < a.
Proof.
  unfold Qgtb. rewrite negb_true_iff. apply (Qgeb_false b a).
Qed.

Lemma Qgtb_false (a b : Q) : Qgtb a b = false <-> a <= b.
Proof.
  unfold Qgtb. rewrite negb_false_iff. apply Qle_bool_iff.
Qed.

(** Turns the boolean comparisons of the context into propositions. *)
Ltac decide_comparisons :=
  repeat match goal with
  | H : Qgeb _ _ = true |- _ => apply Qgeb_true in H
  | H : Qgeb _ _ = false |- _ => apply Qgeb_false in H
  | H : Qgtb _ _ = true |- _ => apply Qgtb_true in H
  | H : Qgtb _ _ = false |- _ => apply Qgtb_false in H
  | H : Qle_bool _ _ = true |- _ => apply Qle_bool_iff in H
  end.

Lemma Q_of_nat_nonzero (n : nat) : n <> 0%nat -> ~ Q_of_nat n == 0.
Proof.
  intros Hn H. unfold Q_of_nat, Qeq in H. simpl in H. lia.
Qed.

Lemma truediv_ok (a b : Q) : ~ b == 0 -> truediv a b = Ok (a / b).
Proof.
  intro Hb. unfold truediv.
  destruct (Qeq_bool b 0) eqn:E; [|reflexivity].
  apply Qeq_bool_iff in E. contradiction.
Qed.

Lemma truediv_raise (a b : Q) : b == 0 -> truediv a b = Raise ZeroDivisionError.
Proof.
  intro Hb. unfold truediv. apply Qeq_bool_iff in Hb. now rewrite Hb.
Qed.

Lemma truediv_len (a : Q) (n : nat) :
  n <> 0%nat -> truediv a (Q_of_nat n) = Ok (a / Q_of_nat n).
Proof. intro Hn. apply truediv_ok. now apply Q_of_nat_nonzero. Qed.

Lemma truthy_length (A : Type) (xs : list A) :
  truthy xs = negb (List.length xs =? 0)%nat.
Proof. now destruct xs. Qed.

Lemma avg_leverage_mean (xs : list Z) :
  avg_leverage xs = Ok (mean_leverage xs).
Proof.
  destruct xs as [|x xs]; [reflexivity|].
  unfold avg_leverage, mean_leverage. cbn [truthy].
  apply truediv_len. discriminate.
Qed.

(** ** Strings and first occurrences *)

Lemma str_in_In (s : string) (xs : list string) :
  str_in s xs = true <-> In s xs.
Proof.
  unfold str_in. rewrite existsb_exists. split.
  - intros [x [Hx He]]. apply String.eqb_eq in He. now subst.
  - intro H. exists s. split; [assumption | apply String.eqb_refl].
Qed.

Lemma str_in_not_In (s : string) (xs : list string) :
  str_in s xs = false <-> ~ In s xs.
Proof.
  rewrite <- str_in_In. destruct (str_in s xs); split; congruence.
Qed.

Lemma first_seen_In (s : string) (l : list string) :
  In s (first_seen l) <-> In s l.
Proof.
  induction l as [|a l IH]; simpl; [tauto|].
  rewrite filter_In, IH, negb_true_iff, String.eqb_neq.
  destruct (string_dec a s); [subst; tauto|].
  split; [tauto|]. intros [H|H]; [tauto|]. right. split; congruence.
Qed.

Lemma first_seen_NoDup (l : list string) : NoDup (first_seen l).
Proof.
  induction l as [|a l IH]; simpl; constructor.
  - rewrite filter_In, negb_true_iff, String.eqb_neq. tauto.
  - now apply NoDup_filter.
Qed.

Lemma filter_all (A : Type) (f : A -> bool) (l : list A) :
  (forall x, In x l -> f x = true) -> filter f l = l.
Proof.
  induction l as [|a l IH]; simpl; intro H; [reflexivity|].
  rewrite (H a) by now left. f_equal. apply IH. intros; apply H; now right.
Qed.

Lemma first_seen_snoc (l : list string) (s : string) :
  first_seen (l ++ [s]) =
  if str_in s l then first_seen l else first_seen l ++ [s].
Proof.
  induction l as [|a l IH]; simpl; [reflexivity|].
  rewrite IH. destruct (String.eqb s a) eqn:E; simpl.
  - destruct (str_in s l); [reflexivity|].
    rewrite filter_app. simpl. rewrite E. simpl. now rewrite app_nil_r.
  - destruct (str_in s l); [reflexivity|].
    rewrite filter_app. simpl. rewrite E. reflexivity.
Qed.

(** ** The grouping loop *)

Section Grouping.
Variable V : Type.
Variable dflt : V.

Lemma dict_modify_twice (k : string) (f g : V -> V) (d : dict V) :
  dict_modify dflt k f (dict_modify dflt k g d) =
  dict_modify dflt k (fun v => f (g v)) d.
Proof.
  induction d as [|[k' v] d IH]; simpl.
  - now rewrite String.eqb_refl.
  - destruct (String.eqb k k') eqn:E; simpl; rewrite E; [reflexivity|].
    now rewrite IH.
Qed.

(** Modifying the entry of [k] in a dictionary tabulated from [F] gives
    the dictionary tabulated from [F'], with [k] added at the end if it
    is new. *)
Lemma dict_modify_tabulate (k : string) (f : V -> V) (F F' : string -> V)
    (ks : list string) :
  NoDup ks ->
  (forall s, s <> k -> F' s = F s) ->
  (In k ks -> F' k = f (F k)) ->
  (~ In k ks -> F' k = f dflt) ->
  dict_modify dflt k f (map (fun s => (s, F s)) ks) =
  map (fun s => (s, F' s)) (if str_in k ks then ks else ks ++ [k]).
Proof.
  intros Hnd Hother.
  induction ks as [|a ks IH]; intros Hin Hnew.
  - simpl. rewrite Hnew by tauto. reflexivity.
  - inversion Hnd as [|a' ks' Ha Hnd']; subst.
    cbn [map dict_modify str_in existsb].
    fold (str_in k ks).
    destruct (String.eqb k a) eqn:E.
    + apply String.eqb_eq in E. subst a. cbn [orb map].
      rewrite Hin by now left. f_equal.
      apply map_ext_in. intros s Hs.
      rewrite Hother; [reflexivity|]. intros ->. contradiction.
    + apply String.eqb_neq in E. cbn [orb].
      rewrite IH; [ | assumption | | ].
      * destruct (str_in k ks); cbn [map app];
          (rewrite (Hother a) by congruence); reflexivity.
      * intro H. apply Hin. now right.
      * intro H. apply Hnew. intros [H'|H']; [congruence | contradiction].
Qed.
End Grouping.

Lemma group_positions_flat (tracked : option (list string))
    (positions : dict (list Position.t)) :
  group_positions tracked positions =
  fold_left (group_pair tracked) (all_positions positions) [].
Proof.
  unfold group_positions. generalize (@nil (string * SymbolData.t)).
  induction positions as [|[uid l] rest IH]; intro acc; [reflexivity|].
  cbn [fold_left all_positions flat_map fst snd].
  rewrite fold_left_app, IH. f_equal.
  clear IH. revert acc.
  induction l as [|pos l IHl]; intro acc; [reflexivity|].
  cbn [fold_left map]. now rewrite IHl.
Qed.

Lemma longs_of_snoc (s : string) (ps : list (string * Position.t))
    (up : string * Position.t) :
  longs_of s (ps ++ [up]) =
  longs_of s ps ++ (if on_symbol s up && is_long up then [up] else []).
Proof. unfold longs_of. rewrite filter_app. reflexivity. Qed.

Lemma shorts_of_snoc (s : string) (ps : list (string * Position.t))
    (up : string * Position.t) :
  shorts_of s (ps ++ [up]) =
  shorts_of s ps ++ (if on_symbol s up && negb (is_long up) then [up] else []).
Proof. unfold shorts_of. rewrite filter_app. reflexivity. Qed.

Lemma data_of_other (ps : list (string * Position.t))
    (up : string * Position.t) (s : string) :
  s <> symbol_of up -> data_of (ps ++ [up]) s = data_of ps s.
Proof.
  intro Hne. unfold data_of.
  rewrite longs_of_snoc, shorts_of_snoc.
  assert (E : on_symbol s up = false).
  { unfold on_symbol. apply String.eqb_neq. congruence. }
  rewrite E. cbn [andb]. now rewrite !app_nil_r.
Qed.

Lemma data_of_absent (ps : list (string * Position.t)) (s : string) :
  ~ In s (map symbol_of ps) -> data_of ps s = SymbolData.empty.
Proof.
  intro Hn.
  assert (E : forall g, filter (fun up => on_symbol s up && g up) ps = []).
  { intro g. induction ps as [|up ps IH]; [reflexivity|].
    simpl in Hn |- *.
    assert (Eo : on_symbol s up = false).
    { unfold on_symbol. apply String.eqb_neq. tauto. }
    rewrite Eo. cbn [andb]. apply IH. tauto. }
  unfold data_of, longs_of, shorts_of.
  rewrite (E is_long), (E (fun up => negb (is_long up))). reflexivity.
Qed.

Lemma data_of_long (ps : list (string * Position.t))
    (up : string * Position.t) :
  is_long up = true ->
  data_of (ps ++ [up]) (symbol_of up) =
  SymbolData.append_long_leverage (leverage_of up)
    (SymbolData.append_long_pnl (pnl_of up)
       (SymbolData.append_longs (fst up) (data_of ps (symbol_of up)))).
Proof.
  intro Hl. unfold data_of.
  rewrite longs_of_snoc, shorts_of_snoc.
  unfold on_symbol. rewrite String.eqb_refl, Hl. cbn [andb negb].
  rewrite !map_app, !app_nil_r. reflexivity.
Qed.

Lemma data_of_short (ps : list (string * Position.t))
    (up : string * Position.t) :
  is_long up = false ->
  data_of (ps ++ [up]) (symbol_of up) =
  SymbolData.append_short_leverage (leverage_of up)
    (SymbolData.append_short_pnl (pnl_of up)
       (SymbolData.append_shorts (fst up) (data_of ps (symbol_of up)))).
Proof.
  intro Hl. unfold data_of.
  rewrite longs_of_snoc, shorts_of_snoc.
  unfold on_symbol. rewrite String.eqb_refl, Hl. cbn [andb negb].
  rewrite !map_app, !app_nil_r. reflexivity.
Qed.

Lemma kept_snoc (tracked : option (list string))
    (ps : list (string * Position.t)) (up : string * Position.t) :
  kept tracked (ps ++ [up]) =
  if filtered_out tracked (symbol_of up) then kept tracked ps
  else kept tracked ps ++ [up].
Proof.
  unfold kept. rewrite filter_app. cbn [filter]. fold (symbol_of up).
  destruct (filtered_out tracked (symbol_of up)); cbn [negb];
    [apply app_nil_r | reflexivity].
Qed.

(** After the grouping loop, [symbol_data] holds the symbols of the kept
    positions in the order they were first seen, each with the
    accumulators of its own positions. *)
Lemma group_tabulated (tracked : option (list string))
    (ps : list (string * Position.t)) :
  fold_left (group_pair tracked) ps [] =
  map (fun s => (s, data_of (kept tracked ps) s))
      (first_seen (map symbol_of (kept tracked ps))).
Proof.
  induction ps as [|up ps IH] using rev_ind; [reflexivity|].
  rewrite fold_left_app. cbn [fold_left]. rewrite IH, kept_snoc.
  unfold group_pair at 1, group_position. fold (symbol_of up).
  destruct (filtered_out tracked (symbol_of up)) eqn:Ef; [reflexivity|].
  set (K := kept tracked ps).
  assert (Hshape :
    (if str_in (symbol_of up) (first_seen (map symbol_of K))
     then first_seen (map symbol_of K)
     else first_seen (map symbol_of K) ++ [symbol_of up]) =
    first_seen (map symbol_of (K ++ [up]))).
  { rewrite map_app. cbn [map]. rewrite first_seen_snoc.
    destruct (str_in (symbol_of up) (map symbol_of K)) eqn:E.
    - apply str_in_In in E. apply first_seen_In in E.
      apply str_in_In in E. now rewrite E.
    - apply str_in_not_In in E. rewrite <- first_seen_In in E.
      apply str_in_not_In in E. now rewrite E. }
  fold (is_long up). fold (pnl_of up). fold (leverage_of up).
  destruct (is_long up) eqn:El; rewrite !dict_modify_twice, <- Hshape;
    apply dict_modify_tabulate;
    try apply first_seen_NoDup;
    try (intros s Hs; now apply data_of_other).
  - intros _. now apply data_of_long.
  - intro Hn. rewrite first_seen_In in Hn.
    rewrite data_of_long by assumption. now rewrite (data_of_absent _ _ Hn).
  - intros _. now apply data_of_short.
  - intro Hn. rewrite first_seen_In in Hn.
    rewrite data_of_short by assumption. now rewrite (data_of_absent _ _ Hn).
Qed.

(** ** The consensus loop *)

Lemma sides_partition (s : string) (ps : list (string * Position.t)) :
  (List.length (longs_of s ps) + List.length (shorts_of s ps))%nat =
  List.length (filter (on_symbol s) ps).
Proof.
  unfold longs_of, shorts_of.
  induction ps as [|up ps IH]; [reflexivity|].
  cbn [filter]. destruct (on_symbol s up), (is_long up);
    cbn [andb negb List.length]; lia.
Qed.

Lemma on_symbol_present (s : string) (ps : list (string * Position.t)) :
  In s (map symbol_of ps) -> List.length (filter (on_symbol s) ps) <> 0%nat.
Proof.
  intro H. apply in_map_iff in H. destruct H as [up [Hs Hin]].
  assert (Hf : In up (filter (on_symbol s) ps)).
  { apply filter_In. split; [assumption|].
    unfold on_symbol. now apply String.eqb_eq. }
  destruct (filter (on_symbol s) ps); [contradiction | discriminate].
Qed.

Lemma build_consensus_tabulated (self : ConsensusEngine.t)
    (ps : list (string * Position.t)) (ks : list string)
    (acc : list SymbolConsensus.t) :
  (forall s, In s ks -> In s (map symbol_of ps)) ->
  build_consensus self (map (fun s => (s, data_of ps s)) ks) acc =
  Ok (acc ++ map (consensus_of self ps) ks).
Proof.
  revert acc. induction ks as [|s ks IH]; intros acc Hks.
  - simpl. now rewrite app_nil_r.
  - cbn [map build_consensus data_of SymbolData.longs SymbolData.shorts
         SymbolData.long_leverage SymbolData.short_leverage
         SymbolData.long_pnl SymbolData.short_pnl].
    rewrite !length_map.
    assert (Htot : (List.length (longs_of s ps) +
                    List.length (shorts_of s ps))%nat <> 0%nat).
    { rewrite sides_partition. apply on_symbol_present, Hks. now left. }
    destruct (Nat.eqb_spec (List.length (longs_of s ps) +
                            List.length (shorts_of s ps)) 0) as [E|_];
      [contradiction|].
    rewrite !truediv_len by assumption. cbn [bind].
    rewrite !avg_leverage_mean. cbn [bind].
    rewrite IH by (intros; apply Hks; now right).
    rewrite <- app_assoc. reflexivity.
Qed.

(** The engine never raises, and its output is the sorted list of the
    records of the snapshot. *)
Lemma calculate_consensus_eq (self : ConsensusEngine.t)
    (traders : list Trader.t) (positions : dict (list Position.t))
    (tracked : option (list string)) :
  calculate_consensus self traders positions tracked =
  Ok (sort_reverse SymbolConsensus.total_count
        (consensus_records self tracked positions)).
Proof.
  unfold calculate_consensus, consensus_records.
  rewrite group_positions_flat, group_tabulated.
  rewrite build_consensus_tabulated.
  - reflexivity.
  - intros s Hs. now apply first_seen_In.
Qed.

(** ** The sort *)

Section SortFacts.
Variable A : Type.
Variable key : A -> nat.

Lemma insert_desc_perm (x : A) (l : list A) :
  Permutation (insert_desc key x l) (x :: l).
Proof.
  induction l as [|y l IH]; simpl; [apply Permutation_refl|].
  destruct (key y <=? key x)%nat; [apply Permutation_refl|].
  eapply Permutation_trans; [apply perm_skip, IH | apply perm_swap].
Qed.

Lemma sort_reverse_perm (l : list A) : Permutation (sort_reverse key l) l.
Proof.
  induction l as [|x l IH]; simpl; [constructor|].
  eapply Permutation_trans; [apply insert_desc_perm | now apply perm_skip].
Qed.

Lemma sort_reverse_In (x : A) (l : list A) :
  In x (sort_reverse key l) <-> In x l.
Proof.
  split; apply Permutation_in;
    [ | apply Permutation_sym ]; apply sort_reverse_perm.
Qed.

Lemma insert_desc_sorted (x : A) (l : list A) :
  descending key l -> descending key (insert_desc key x l).
Proof.
  unfold descending. induction l as [|y l IH]; intro Hs; simpl.
  - constructor; constructor.
  - inversion Hs as [|y' l' Hl Hy]; subst.
    destruct (Nat.leb_spec (key y) (key x)) as [Hle|Hlt].
    + constructor; [assumption|].
      constructor; [assumption|].
      apply Forall_forall. intros z Hz.
      rewrite Forall_forall in Hy. specialize (Hy z Hz). lia.
    + constructor; [now apply IH|].
      apply Forall_forall. intros z Hz.
      apply (Permutation_in _ (insert_desc_perm x l)) in Hz.
      destruct Hz as [<-|Hz]; [lia|].
      rewrite Forall_forall in Hy. now apply Hy.
Qed.

Lemma sort_reverse_sorted (l : list A) : descending key (sort_reverse key l).
Proof.
  induction l as [|x l IH]; simpl; [constructor|].
  now apply insert_desc_sorted.
Qed.

(** Insertion never moves an element past one with the same key. *)
Lemma insert_desc_with_key (k : nat) (x : A) (l : list A) :
  with_key key k (insert_desc key x l) = with_key key k (x :: l).
Proof.
  unfold with_key. induction l as [|y l IH]; [reflexivity|].
  cbn [insert_desc].
  destruct (Nat.leb_spec (key y) (key x)) as [Hle|Hlt]; [reflexivity|].
  cbn [filter] in IH |- *. rewrite IH.
  destruct (Nat.eqb_spec (key x) k), (Nat.eqb_spec (key y) k);
    try reflexivity; lia.
Qed.

Lemma sort_reverse_stable (k : nat) (l : list A) :
  with_key key k (sort_reverse key l) = with_key key k l.
Proof.
  induction l as [|x l IH]; [reflexivity|].
  cbn [sort_reverse fold_right]. rewrite insert_desc_with_key.
  fold (sort_reverse key l). unfold with_key in *. cbn [filter].
  now rewrite IH.
Qed.

Lemma with_key_head (x : A) (l : list A) :
  with_key key (key x) (x :: l) = x :: with_key key (key x) l.
Proof. unfold with_key. cbn [filter]. now rewrite Nat.eqb_refl. Qed.

Lemma with_key_In (k : nat) (x : A) (l : list A) :
  In x (with_key key k l) <-> In x l /\ key x = k.
Proof. unfold with_key. rewrite filter_In, Nat.eqb_eq. tauto. Qed.

Lemma descending_head_max (x y : A) (l : list A) :
  descending key (x :: l) -> In y (x :: l) -> (key y <= key x)%nat.
Proof.
  intros Hs [<-|Hy]; [lia|].
  inversion Hs as [|x' l' _ Hx]; subst.
  rewrite Forall_forall in Hx. now apply Hx.
Qed.

(** A stable descending sort has one possible output: two descending
    lists in which the elements of each key come in the same order are
    equal. *)
Lemma stable_sort_unique (l1 l2 : list A) :
  descending key l1 -> descending key l2 ->
  (forall k, with_key key k l1 = with_key key k l2) ->
  l1 = l2.
Proof.
  revert l2. induction l1 as [|x l1 IH]; intros l2 H1 H2 Hk.
  - destruct l2 as [|y l2]; [reflexivity|].
    specialize (Hk (key y)). rewrite with_key_head in Hk. discriminate.
  - destruct l2 as [|y l2].
    { specialize (Hk (key x)). rewrite with_key_head in Hk. discriminate. }
    assert (Hxy : key x = key y).
    { apply Nat.le_antisymm.
      - apply (descending_head_max H2).
        apply (with_key_In (key x)). rewrite <- Hk, with_key_head. now left.
      - apply (descending_head_max H1).
        apply (with_key_In (key y)). rewrite Hk, with_key_head. now left. }
    assert (Hhead := Hk (key x)).
    rewrite with_key_head, Hxy, with_key_head in Hhead.
    injection Hhead as -> Htail.
    f_equal. apply IH.
    + now inversion H1.
    + now inversion H2.
    + intro k. destruct (Nat.eq_dec k (key y)) as [->|Hne];
        [assumption|].
      specialize (Hk k). unfold with_key in Hk |- *. cbn [filter] in Hk.
      destruct (Nat.eqb_spec (key y) k); [congruence | assumption].
Qed.
End SortFacts.

(* ------------------------------------------------------------------ *)
(** * Properties of the specification *)

(** ** Signal classifier *)

(** C1. For all percentages and every threshold [T] the classifier
    applies five rules, the first that matches winning: STRONG_BUY when
    [long_percent >= 70], whatever [T] is; BUY when
    [T <= long_percent < 70]; otherwise STRONG_SELL when
    [short_percent >= 70]; otherwise SELL when [T <= short_percent < 70];
    NEUTRAL when no rule matches.  It agrees everywhere with [classify],
    the ordered rules as the specification words them. *)
Theorem get_signal_rules (self : ConsensusEngine.t) (long_percent short_percent : Q) :
  let T := ConsensusEngine.min_consensus self in
  let buy_family := 70 <= long_percent \/ (T <= long_percent /\ long_percent < 70) in
  (70 <= long_percent ->
     _get_signal self long_percent short_percent = "STRONG_BUY") /\
  (T <= long_percent /\ long_percent < 70 ->
     _get_signal self long_percent short_percent = "BUY") /\
  (~ buy_family -> 70 <= short_percent ->
     _get_signal self long_percent short_percent = "STRONG_SELL") /\
  (~ buy_family -> T <= short_percent /\ short_percent < 70 ->
     _get_signal self long_percent short_percent = "SELL") /\
  (~ buy_family -> ~ 70 <= short_percent ->
   ~ (T <= short_percent /\ short_percent < 70) ->
     _get_signal self long_percent short_percent = "NEUTRAL") /\
  _get_signal self long_percent short_percent =
    classify long_percent short_percent T.
Proof.
  intros T buy_family. subst buy_family.
  unfold _get_signal, classify. fold T.
  destruct (Qgeb long_percent 70) eqn:E1;
  destruct (Qgeb long_percent T) eqn:E2;
  destruct (Qgeb short_percent 70) eqn:E3;
  destruct (Qgeb short_percent T) eqn:E4;
  unfold Qgeb in E1, E2, E3, E4; rewrite ?E1, ?E2, ?E3, ?E4; cbn [andb negb];
  fold (Qgeb long_percent 70) in E1; fold (Qgeb long_percent T) in E2;
  fold (Qgeb short_percent 70) in E3; fold (Qgeb short_percent T) in E4;
  decide_comparisons;
  repeat split; try reflexivity; intros; exfalso; lra.
Qed.

(** The five rules at sample points, thresholds above 70 included. *)
Lemma get_signal_rules_witness :
  _get_signal (ConsensusEngine.mk 60) 80 20 = "STRONG_BUY" /\
  _get_signal (ConsensusEngine.mk 90) 75 25 = "STRONG_BUY" /\
  _get_signal (ConsensusEngine.mk 60) 65 35 = "BUY" /\
  _get_signal (ConsensusEngine.mk 60) 20 80 = "STRONG_SELL" /\
  _get_signal (ConsensusEngine.mk 60) 35 65 = "SELL" /\
  _get_signal (ConsensusEngine.mk 60) 50 50 = "NEUTRAL".
Proof.
  pose proof (get_signal_rules (ConsensusEngine.mk 60) 80 20) as H1.
  pose proof (get_signal_rules (ConsensusEngine.mk 90) 75 25) as H2.
  pose proof (get_signal_rules (ConsensusEngine.mk 60) 65 35) as H3.
  pose proof (get_signal_rules (ConsensusEngine.mk 60) 20 80) as H4.
  pose proof (get_signal_rules (ConsensusEngine.mk 60) 35 65) as H5.
  pose proof (get_signal_rules (ConsensusEngine.mk 60) 50 50) as H6.
  cbn zeta in *. cbn [ConsensusEngine.min_consensus] in *.
  destruct H1 as [H1 _], H2 as [H2 _], H3 as [_ [H3 _]], H4 as [_ [_ [H4 _]]],
    H5 as [_ [_ [_ [H5 _]]]], H6 as [_ [_ [_ [_ [H6 _]]]]].
  split; [apply H1; lra|].
  split; [apply H2; lra|].
  split; [apply H3; lra|].
  split; [apply H4; lra|].
  split; [apply H5; lra|].
  apply H6; lra.
Defined.

(** ** Consensus records *)

Lemma consensus_records_In (self : ConsensusEngine.t)
    (tracked : option (list string)) (positions : dict (list Position.t))
    (c : SymbolConsensus.t) :
  In c (consensus_records self tracked positions) <->
  exists s, In s (map symbol_of (kept tracked (all_positions positions))) /\
            c = consensus_of self (kept tracked (all_positions positions)) s.
Proof.
  unfold consensus_records. rewrite in_map_iff.
  split; intros [s [H1 H2]]; exists s.
  - apply -> first_seen_In in H2. split; [assumption | now symmetry].
  - apply <- first_seen_In in H1. split; [now symmetry | assumption].
Qed.

(** A property of every record of the snapshot holds of every record of
    the output. *)
Lemma calculate_consensus_Forall (P : SymbolConsensus.t -> Prop)
    (self : ConsensusEngine.t) (traders : list Trader.t)
    (positions : dict (list Position.t)) (tracked : option (list string)) :
  (forall s, In s (map symbol_of (kept tracked (all_positions positions))) ->
     P (consensus_of self (kept tracked (all_positions positions)) s)) ->
  exists out,
    calculate_consensus self traders positions tracked = Ok out /\
    Forall P out.
Proof.
  intro HP. eexists. split; [apply calculate_consensus_eq|].
  apply Forall_forall. intros c Hc.
  apply sort_reverse_In, consensus_records_In in Hc.
  destruct Hc as [s [Hs ->]]. now apply HP.
Qed.

Lemma Q_of_nat_add (a b : nat) :
  Q_of_nat (a + b) == Q_of_nat a + Q_of_nat b.
Proof.
  unfold Q_of_nat. now rewrite Nat2Z.inj_add, inject_Z_plus.
Qed.

Lemma percentages_complementary (a b : nat) :
  (a + b)%nat <> 0%nat ->
  Q_of_nat a / Q_of_nat (a + b) * 100 + Q_of_nat b / Q_of_nat (a + b) * 100
  == 100.
Proof.
  intro Hn. apply Q_of_nat_nonzero in Hn.
  rewrite Q_of_nat_add in *. field. assumption.
Qed.

(** C2. Whatever the snapshot, the engine returns a list in which every
    record has [long_count + short_count = total_count], percentages that
    add up to 100 (exactly, in rational arithmetic) and a [total_count]
    that is not 0. *)
Theorem consensus_record_invariants (self : ConsensusEngine.t)
    (traders : list Trader.t) (positions : dict (list Position.t))
    (tracked_symbols : option (list string)) :
  exists out,
    calculate_consensus self traders positions tracked_symbols = Ok out /\
    Forall
      (fun c =>
         (SymbolConsensus.long_count c + SymbolConsensus.short_count c)%nat
           = SymbolConsensus.total_count c /\
         SymbolConsensus.long_percent c + SymbolConsensus.short_percent c
           == 100 /\
         SymbolConsensus.total_count c <> 0%nat)
      out.
Proof.
  apply calculate_consensus_Forall. intros s Hs.
  assert (Htot : (List.length (longs_of s (kept tracked_symbols
                                             (all_positions positions))) +
                  List.length (shorts_of s (kept tracked_symbols
                                              (all_positions positions))))%nat
                 <> 0%nat).
  { rewrite sides_partition. now apply on_symbol_present. }
  cbn. split; [reflexivity|]. split; [|assumption].
  now apply percentages_complementary.
Qed.

(** ** Percentages in binary64 *)

Lemma all_within_sound (n : nat) :
  all_within n = true ->
  forall l s, (0 < l + s <= n)%nat -> within_ulp l s = true.
Proof.
  intros A l s H. unfold all_within in A.
  rewrite forallb_forall in A. specialize (A (l + s)%nat).
  rewrite forallb_forall in A.
  assert (Hl : within_ulp l (l + s - l) = true)
    by (apply A; apply in_seq; lia).
  now replace (l + s - l)%nat with s in Hl by lia.
Qed.

Lemma all_within_200 : all_within 200 = true.
Proof. vm_compute. reflexivity. Qed.

(** On doubles, for up to 200 positions on a symbol, the two percentages
    add up to 100 within one unit in the last place (2^-46). *)
Lemma percentages_binary64 (long_count short_count : nat) :
  (0 < long_count + short_count <= 200)%nat ->
  within_ulp long_count short_count = true.
Proof. exact (all_within_sound all_within_200 long_count short_count). Qed.

(** They need not add up to 100 exactly: one long and two shorts give
    33.333333333333329 and 66.666666666666657. *)
Lemma percentages_binary64_inexact :
  PrimFloat.eqb (deviation64 1 2) (float_of_nat 0) = false /\
  PrimFloat.eqb (deviation64 1 2) ulp100 = true.
Proof. split; vm_compute; reflexivity. Qed.

(** ** Output order *)

Lemma consensus_of_symbol (self : ConsensusEngine.t)
    (ps : list (string * Position.t)) (l : list string) :
  map SymbolConsensus.symbol (map (consensus_of self ps) l) = l.
Proof.
  rewrite map_map. cbn. apply map_id.
Qed.

Lemma filter_map_comm (A B : Type) (f : A -> B) (p : B -> bool) (l : list A) :
  filter p (map f l) = map f (filter (fun a => p (f a)) l).
Proof.
  induction l as [|a l IH]; [reflexivity|].
  cbn [map filter]. destruct (p (f a)); cbn [map]; now rewrite IH.
Qed.

(** C7. The output is in descending order of [total_count], and for every
    count [k] the symbols of the records with [total_count = k] come in
    the order in which the snapshot first shows them. *)
Theorem consensus_sorted_stable (self : ConsensusEngine.t)
    (traders : list Trader.t) (positions : dict (list Position.t))
    (tracked_symbols : option (list string)) :
  let ps := kept tracked_symbols (all_positions positions) in
  let count := fun s => List.length (filter (on_symbol s) ps) in
  exists out,
    calculate_consensus self traders positions tracked_symbols = Ok out /\
    descending SymbolConsensus.total_count out /\
    forall k,
      map SymbolConsensus.symbol (with_key SymbolConsensus.total_count k out)
      = filter (fun s => count s =? k)%nat (first_seen (map symbol_of ps)).
Proof.
  intros ps count. eexists. split; [apply calculate_consensus_eq|].
  split; [apply sort_reverse_sorted|].
  intro k. rewrite sort_reverse_stable.
  unfold with_key, consensus_records. fold ps.
  rewrite filter_map_comm, consensus_of_symbol.
  apply filter_ext. intro s. cbn. unfold count.
  now rewrite sides_partition.
Qed.

(** ** Leverage and PnL per side *)

Lemma mean_leverage_spec (A : Type) (f : A -> Z) (l : list A) :
  (l <> [] ->
   mean_leverage (map f l) ==
   inject_Z (sumZ (map f l)) / Q_of_nat (List.length l)) /\
  (l = [] -> mean_leverage (map f l) == 0).
Proof.
  destruct l as [|a l]; split; intro H; try congruence; try reflexivity.
  cbn [map mean_leverage]. now rewrite <- (length_map f (a :: l)).
Qed.

(** C8. In every record of the output, the average leverage of a side is
    the sum of the leverages of the positions of that symbol and side
    divided by their number, and 0 when there is none; the PnL of a side
    is the sum of the recorded [pnl] of those positions. *)
Theorem leverage_mean_and_pnl_sum (self : ConsensusEngine.t)
    (traders : list Trader.t) (positions : dict (list Position.t))
    (tracked_symbols : option (list string)) :
  let ps := kept tracked_symbols (all_positions positions) in
  exists out,
    calculate_consensus self traders positions tracked_symbols = Ok out /\
    Forall
      (fun c =>
         let L := longs_of (SymbolConsensus.symbol c) ps in
         let S := shorts_of (SymbolConsensus.symbol c) ps in
         (L <> [] ->
          SymbolConsensus.avg_leverage_long c ==
          inject_Z (sumZ (map leverage_of L)) / Q_of_nat (List.length L)) /\
         (L = [] -> SymbolConsensus.avg_leverage_long c == 0) /\
         (S <> [] ->
          SymbolConsensus.avg_leverage_short c ==
          inject_Z (sumZ (map leverage_of S)) / Q_of_nat (List.length S)) /\
         (S = [] -> SymbolConsensus.avg_leverage_short c == 0) /\
         SymbolConsensus.total_long_pnl c = sum (map pnl_of L) /\
         SymbolConsensus.total_short_pnl c = sum (map pnl_of S))
      out.
Proof.
  intro ps. apply calculate_consensus_Forall. fold ps. intros s _.
  cbn [consensus_of SymbolConsensus.symbol SymbolConsensus.avg_leverage_long
       SymbolConsensus.avg_leverage_short SymbolConsensus.total_long_pnl
       SymbolConsensus.total_short_pnl].
  cbn zeta.
  destruct (mean_leverage_spec leverage_of (longs_of s ps)) as [H1 H2].
  destruct (mean_leverage_spec leverage_of (shorts_of s ps)) as [H3 H4].
  repeat split; assumption.
Qed.

(** ** Sides *)

Lemma shorts_of_In (s : string) (ps : list (string * Position.t))
    (up : string * Position.t) :
  In up (shorts_of s ps) <->
  In up ps /\ symbol_of up = s /\ Position.side (snd up) <> "LONG".
Proof.
  unfold shorts_of, on_symbol, is_long.
  rewrite filter_In, andb_true_iff, negb_true_iff, String.eqb_eq,
    String.eqb_neq.
  tauto.
Qed.

Lemma longs_of_In (s : string) (ps : list (string * Position.t))
    (up : string * Position.t) :
  In up (longs_of s ps) <->
  In up ps /\ symbol_of up = s /\ Position.side (snd up) = "LONG".
Proof.
  unfold longs_of, on_symbol, is_long.
  rewrite filter_In, andb_true_iff, !String.eqb_eq. tauto.
Qed.

(** C10. The positions counted on the short side of a symbol are those
    whose [side] is any string other than "LONG"; the engine returns for
    every snapshot, every position that passes the allowlist has a record
    for its symbol, and the record counts all the positions of the symbol,
    the shorts being those that are not long. *)
Theorem non_long_counts_short (self : ConsensusEngine.t)
    (traders : list Trader.t) (positions : dict (list Position.t))
    (tracked_symbols : option (list string)) :
  let ps := kept tracked_symbols (all_positions positions) in
  (forall s up,
     In up (shorts_of s ps) <->
     In up ps /\ symbol_of up = s /\ Position.side (snd up) <> "LONG") /\
  exists out,
    calculate_consensus self traders positions tracked_symbols = Ok out /\
    (forall up, In up ps ->
       exists c, In c out /\ SymbolConsensus.symbol c = symbol_of up) /\
    Forall
      (fun c =>
         SymbolConsensus.short_count c =
           List.length (shorts_of (SymbolConsensus.symbol c) ps) /\
         SymbolConsensus.long_count c =
           List.length (longs_of (SymbolConsensus.symbol c) ps) /\
         SymbolConsensus.total_count c =
           List.length (filter (on_symbol (SymbolConsensus.symbol c)) ps))
      out.
Proof.
  intro ps. split; [intros; apply shorts_of_In|].
  eexists. split; [apply calculate_consensus_eq|]. split.
  - intros up Hup. exists (consensus_of self ps (symbol_of up)).
    split; [|reflexivity].
    apply sort_reverse_In, consensus_records_In.
    exists (symbol_of up). split; [|reflexivity]. now apply in_map.
  - apply Forall_forall. intros c Hc.
    apply sort_reverse_In, consensus_records_In in Hc.
    destruct Hc as [s [_ ->]]. cbn. fold ps.
    rewrite sides_partition. repeat split; reflexivity.
Qed.

(** A misspelt side, and a lower-case "long", land on the short side. *)
Example misspelt_sides_are_short :
  exists c,
    calculate_consensus (ConsensusEngine.mk 60) []
      [("uid1", [Position.mk "BTCUSDT" "SHRT" 1 1 0 0 1 0;
                 Position.mk "BTCUSDT" "long" 1 1 0 0 1 0;
                 Position.mk "BTCUSDT" "LONG" 1 1 0 0 1 0])] None = Ok [c] /\
    SymbolConsensus.short_count c = 2%nat /\
    SymbolConsensus.long_count c = 1%nat.
Proof. eexists. split; [vm_compute; reflexivity|]. now split. Qed.

(** ** The allowlist *)

Lemma kept_None (ps : list (string * Position.t)) : kept None ps = ps.
Proof. unfold kept. now apply filter_all. Qed.

Lemma kept_empty (ps : list (string * Position.t)) : kept (Some []) ps = ps.
Proof. unfold kept. now apply filter_all. Qed.

Lemma kept_allow (allow : list string) (ps : list (string * Position.t)) :
  allow <> [] ->
  kept (Some allow) ps = filter (fun up => str_in (symbol_of up) allow) ps.
Proof.
  intro Hne. unfold kept. apply filter_ext. intro up.
  unfold filtered_out, symbol_of. destruct allow; [congruence|].
  cbn [truthy andb]. apply negb_involutive.
Qed.

Lemma all_positions_restrict (allow : list string)
    (positions : dict (list Position.t)) :
  all_positions (restrict_to allow positions) =
  filter (fun up => str_in (symbol_of up) allow) (all_positions positions).
Proof.
  unfold all_positions, restrict_to.
  induction positions as [|[uid l] rest IH]; [reflexivity|].
  cbn [map flat_map fst snd]. rewrite filter_app, IH. f_equal.
  clear IH. induction l as [|pos l IHl]; [reflexivity|].
  cbn [filter map]. unfold symbol_of at 1. cbn [snd].
  destruct (str_in (Position.symbol pos) allow); cbn [map]; now rewrite IHl.
Qed.

(** C5, as the code has it.  With a non-empty allowlist, the output is
    the output for the snapshot from which the positions of the other
    symbols are removed, and it has records of allowed symbols only; an
    empty allowlist is treated as an absent one; with no allowlist every
    position has a record for its symbol that counts all the positions of
    that symbol. *)
Theorem allowlist_filter (self : ConsensusEngine.t)
    (traders : list Trader.t) (positions : dict (list Position.t)) :
  (forall allow, allow <> [] ->
     calculate_consensus self traders positions (Some allow) =
     calculate_consensus self traders (restrict_to allow positions) None /\
     exists out,
       calculate_consensus self traders positions (Some allow) = Ok out /\
       Forall (fun c => In (SymbolConsensus.symbol c) allow) out) /\
  calculate_consensus self traders positions (Some []) =
  calculate_consensus self traders positions None /\
  exists out,
    calculate_consensus self traders positions None = Ok out /\
    forall up, In up (all_positions positions) ->
      exists c,
        In c out /\ SymbolConsensus.symbol c = symbol_of up /\
        SymbolConsensus.total_count c =
        List.length (filter (on_symbol (symbol_of up))
                       (all_positions positions)).
Proof.
  split; [|split].
  - intros allow Hne. split.
    + rewrite !calculate_consensus_eq. unfold consensus_records.
      now rewrite kept_None, all_positions_restrict, kept_allow.
    + apply calculate_consensus_Forall. intros s Hs.
      rewrite kept_allow in Hs by assumption.
      apply in_map_iff in Hs. destruct Hs as [up [<- Hup]].
      apply filter_In in Hup. cbn. now apply str_in_In.
  - rewrite !calculate_consensus_eq. unfold consensus_records.
    now rewrite kept_None, kept_empty.
  - eexists. split; [apply calculate_consensus_eq|].
    intros up Hup.
    exists (consensus_of self (all_positions positions) (symbol_of up)).
    split; [|split].
    + apply sort_reverse_In, consensus_records_In.
      exists (symbol_of up). rewrite kept_None.
      split; [now apply in_map | reflexivity].
    + reflexivity.
    + cbn. now rewrite sides_partition.
Qed.

(** The allowlist at work: ETHUSDT is dropped by a list that lacks it,
    kept by the empty list and by no list. *)
Lemma allowlist_filter_witness :
  let p1 := Position.mk "BTCUSDT" "LONG" 40000 41000 1000 2.5 1 0 in
  let p2 := Position.mk "ETHUSDT" "SHORT" 2500 2600 500 2 1 0 in
  let positions := [("uid1", [p1; p2])] in
  let engine := ConsensusEngine.mk 60 in
  calculate_consensus engine [] positions (Some ["BTCUSDT"]) =
  calculate_consensus engine [] [("uid1", [p1])] None /\
  calculate_consensus engine [] positions (Some []) =
  calculate_consensus engine [] positions None.
Proof.
  intros p1 p2 positions engine.
  destruct (allowlist_filter engine [] positions) as [H1 [H2 _]].
  split; [|exact H2].
  destruct (H1 ["BTCUSDT"]) as [H _]; [discriminate|]. exact H.
Defined.

(** The claim as stated fails on an allowlist that is given and empty:
    BTCUSDT is not a member of it, and its position is aggregated. *)
Lemma empty_allowlist_counterexample :
  let p1 := Position.mk "BTCUSDT" "LONG" 40000 41000 1000 2.5 1 0 in
  ~ In (Position.symbol p1) [] /\
  exists c,
    calculate_consensus (ConsensusEngine.mk 60) [] [("uid1", [p1])] (Some [])
    = Ok [c] /\
    SymbolConsensus.symbol c = "BTCUSDT" /\
    SymbolConsensus.long_count c = 1%nat /\
    SymbolConsensus.total_long_pnl c == 1000.
Proof.
  intro p1. split; [intros []|].
  eexists. split; [vm_compute; reflexivity|].
  repeat split.
Qed.

(* ------------------------------------------------------------------ *)
(** ** Metrics *)

Lemma avg_pnl_mean (ts : list Trade.t) : avg_pnl ts = Ok (mean_pnl ts).
Proof.
  destruct ts as [|t ts]; [reflexivity|].
  unfold avg_pnl, mean_pnl. cbn [truthy].
  apply truediv_len. discriminate.
Qed.

(** The metrics of a non-empty list, in closed form: no division fails. *)
Lemma calculate_metrics_eq (self : Backtester.t) (trades : list Trade.t) :
  trades <> [] ->
  let winning := filter (fun t => Qgtb (Trade.pnl t) 0) trades in
  let losing := filter (fun t => Qle_bool (Trade.pnl t) 0) trades in
  _calculate_metrics self trades =
  Ok (BacktestResult.mk (List.length trades) (List.length winning)
        (List.length losing)
        (Q_of_nat (List.length winning) / Q_of_nat (List.length trades) * 100)
        (sum (map Trade.pnl trades)) (mean_pnl winning) (mean_pnl losing)
        (fst (fold_left drawdown_step trades (0, 0))) trades).
Proof.
  intros Hne winning losing. unfold _calculate_metrics.
  destruct trades as [|t ts]; [congruence|].
  cbn [truthy negb]. fold winning losing.
  rewrite !avg_pnl_mean. cbn [bind].
  rewrite truediv_len by discriminate. reflexivity.
Qed.

Lemma winner_iff (t : Trade.t) : Qgtb (Trade.pnl t) 0 = true <-> winner t.
Proof. apply Qgtb_true. Qed.

Lemma loser_iff (t : Trade.t) : Qle_bool (Trade.pnl t) 0 = true <-> loser t.
Proof. apply Qle_bool_iff. Qed.

Lemma winners_losers_partition (trades : list Trade.t) :
  Permutation
    (filter (fun t => Qgtb (Trade.pnl t) 0) trades ++
     filter (fun t => Qle_bool (Trade.pnl t) 0) trades)
    trades.
Proof.
  induction trades as [|t ts IH]; [constructor|].
  cbn [filter]. unfold Qgtb at 1.
  destruct (Qle_bool (Trade.pnl t) 0); cbn [negb].
  - apply Permutation_sym, Permutation_cons_app, Permutation_sym, IH.
  - cbn [app]. now apply perm_skip.
Qed.

(** The drawdown loop from [(m, p)]: the maximum never decreases, bounds
    the magnitude of every loss met, and is either the initial one or the
    magnitude of a loss met. *)
Lemma drawdown_loop (l : list Trade.t) (m p : Q) :
  let m' := fst (fold_left drawdown_step l (m, p)) in
  m <= m' /\
  (forall t, In t l -> loser t -> Qabs (Trade.pnl t) <= m') /\
  (m' = m \/ exists t, In t l /\ loser t /\ m' = Qabs (Trade.pnl t)).
Proof.
  revert m p. induction l as [|t l IH]; intros m p.
  - cbn. split; [apply Qle_refl|]. split; [intros t []|now left].
  - cbn [fold_left].
    replace (drawdown_step (m, p) t) with
      (if Qgtb (Trade.pnl t) 0 then (m, p + Trade.pnl t)
       else if Qgtb (Qabs (Trade.pnl t)) m then (Qabs (Trade.pnl t), p)
       else (m, p)) by reflexivity.
    destruct (Qgtb (Trade.pnl t) 0) eqn:Ew.
    + specialize (IH m (p + Trade.pnl t)). cbn zeta in IH |- *.
      destruct IH as [H1 [H2 H3]].
      apply Qgtb_true in Ew.
      split; [assumption|]. split.
      * intros t' [<-|Hin] Hl; [|now apply H2].
        unfold loser in Hl. exfalso. apply (Qlt_not_le _ _ Ew Hl).
      * destruct H3 as [H3|[t' [Hin [Hl He]]]]; [now left|].
        right. exists t'. repeat split; [now right | assumption..].
    + apply Qgtb_false in Ew.
      destruct (Qgtb (Qabs (Trade.pnl t)) m) eqn:Ed.
      * specialize (IH (Qabs (Trade.pnl t)) p). cbn zeta in IH |- *.
        destruct IH as [H1 [H2 H3]].
        apply Qgtb_true in Ed.
        split; [apply Qlt_le_weak; eapply Qlt_le_trans; eassumption|].
        split.
        -- intros t' [<-|Hin] Hl; [assumption | now apply H2].
        -- right. destruct H3 as [H3|[t' [Hin [Hl He]]]].
           ++ exists t. repeat split; [now left | assumption..].
           ++ exists t'. repeat split; [now right | assumption..].
      * specialize (IH m p). cbn zeta in IH |- *.
        destruct IH as [H1 [H2 H3]].
        apply Qgtb_false in Ed.
        split; [assumption|]. split.
        -- intros t' [<-|Hin] Hl; [|now apply H2].
           eapply Qle_trans; eassumption.
        -- destruct H3 as [H3|[t' [Hin [Hl He]]]]; [now left|].
           right. exists t'. repeat split; [now right | assumption..].
Qed.

Lemma filter_none (A : Type) (f : A -> bool) (l : list A) :
  (forall x, In x l -> f x = false) -> filter f l = [].
Proof.
  induction l as [|a l IH]; intro H; [reflexivity|].
  cbn [filter]. rewrite (H a) by now left.
  apply IH. intros; apply H; now right.
Qed.

Lemma Forall_filter_true (A : Type) (f : A -> bool) (l : list A) :
  Forall (fun x => f x = true) (filter f l).
Proof. apply Forall_forall. intros x Hx. now apply filter_In in Hx. Qed.

(** C3. For a non-empty list of trades the metrics are returned, and
    [max_drawdown] bounds the magnitude [|pnl|] of every trade with
    [pnl <= 0] and is the magnitude of one of them, or is 0 when there is
    no such trade; for trades whose PnLs are 10, -5, -8, 3 it is 8. *)
Theorem max_drawdown_largest_loss (self : Backtester.t)
    (trades : list Trade.t) :
  trades <> [] ->
  exists r,
    _calculate_metrics self trades = Ok r /\
    (forall t, In t trades -> loser t ->
       Qabs (Trade.pnl t) <= BacktestResult.max_drawdown r) /\
    ((exists t, In t trades /\ loser t /\
                BacktestResult.max_drawdown r == Qabs (Trade.pnl t)) \/
     ((forall t, In t trades -> ~ loser t) /\
      BacktestResult.max_drawdown r == 0)) /\
    (map Trade.pnl trades = [10; -5; -8; 3] ->
     BacktestResult.max_drawdown r == 8).
Proof.
  intro Hne. eexists. split; [now apply calculate_metrics_eq|].
  cbn [BacktestResult.max_drawdown].
  destruct (drawdown_loop trades 0 0) as [H1 [H2 H3]]. cbn zeta in *.
  split; [assumption|]. split.
  - destruct H3 as [H3|[t [Hin [Hl He]]]].
    + destruct (existsb (fun t => Qle_bool (Trade.pnl t) 0) trades) eqn:E.
      * (* every loss has magnitude 0 here, so the maximum is attained *)
        apply existsb_exists in E. destruct E as [t [Hin Hl]].
        apply loser_iff in Hl. left. exists t. repeat split; try assumption.
        specialize (H2 t Hin Hl). rewrite H3 in *.
        apply Qle_antisym; [apply Qabs_nonneg | assumption].
      * right. split; [|now rewrite H3].
        intros t Hin Hl. apply loser_iff in Hl.
        assert (Hex : existsb (fun t => Qle_bool (Trade.pnl t) 0) trades
                      = true).
        { apply existsb_exists. now exists t. }
        congruence.
    + left. exists t. repeat split; try assumption. now rewrite He.
  - intro Hp.
    destruct trades as [|t1 [|t2 [|t3 [|t4 [|t5 rest]]]]]; try discriminate.
    injection Hp as E1 E2 E3 E4.
    cbn [fold_left]. unfold drawdown_step.
    cbn [fst snd]. rewrite E1. cbn [fst snd]. rewrite E2. cbn [fst snd].
    rewrite E3. cbn [fst snd]. rewrite E4. reflexivity.
Qed.

(** The trades of the specification's example: PnLs 10, -5, -8, 3. *)
Lemma max_drawdown_largest_loss_witness :
  let tr := fun pnl => Trade.mk "BTCUSDT" "LONG" 100 110 0 0 pnl 0 "BUY" in
  exists r,
    _calculate_metrics (Backtester.init 60) [tr 10; tr (-5); tr (-8); tr 3]
    = Ok r /\
    BacktestResult.max_drawdown r == 8.
Proof.
  intro tr.
  destruct (@max_drawdown_largest_loss (Backtester.init 60)
              [tr 10; tr (-5); tr (-8); tr 3])
    as [r [Hr [_ [_ H8]]]]; [discriminate|].
  exists r. split; [exact Hr | apply H8; reflexivity].
Defined.

(** C6. For a non-empty list the metrics are returned; the trades split
    into those with [pnl > 0], which [winning_trades] counts, and those
    with [pnl <= 0], which [losing_trades] counts; a trade with [pnl] zero
    is among the latter and not the former; and [win_rate] is the number
    of winners over the number of trades, times 100. *)
Theorem winners_and_losers (self : Backtester.t) (trades : list Trade.t) :
  trades <> [] ->
  exists r W L,
    _calculate_metrics self trades = Ok r /\
    Permutation (W ++ L) trades /\
    Forall winner W /\ Forall loser L /\
    BacktestResult.winning_trades r = List.length W /\
    BacktestResult.losing_trades r = List.length L /\
    (forall t, In t trades -> Trade.pnl t == 0 -> In t L /\ ~ In t W) /\
    BacktestResult.win_rate r ==
      Q_of_nat (List.length W) / Q_of_nat (List.length trades) * 100.
Proof.
  intro Hne.
  exists (BacktestResult.mk (List.length trades)
            (List.length (filter (fun t => Qgtb (Trade.pnl t) 0) trades))
            (List.length (filter (fun t => Qle_bool (Trade.pnl t) 0) trades))
            (Q_of_nat
               (List.length (filter (fun t => Qgtb (Trade.pnl t) 0) trades))
             / Q_of_nat (List.length trades) * 100)
            (sum (map Trade.pnl trades))
            (mean_pnl (filter (fun t => Qgtb (Trade.pnl t) 0) trades))
            (mean_pnl (filter (fun t => Qle_bool (Trade.pnl t) 0) trades))
            (fst (fold_left drawdown_step trades (0, 0))) trades).
  exists (filter (fun t => Qgtb (Trade.pnl t) 0) trades).
  exists (filter (fun t => Qle_bool (Trade.pnl t) 0) trades).
  split; [now apply calculate_metrics_eq|].
  split; [apply winners_losers_partition|].
  split.
  { apply Forall_forall. intros t Ht. apply filter_In in Ht.
    now apply winner_iff. }
  split.
  { apply Forall_forall. intros t Ht. apply filter_In in Ht.
    now apply loser_iff. }
  split; [reflexivity|]. split; [reflexivity|]. split; [|reflexivity].
  intros t Hin Hz. split.
  - apply filter_In. split; [assumption|].
    apply Qle_bool_iff. rewrite Hz. apply Qle_refl.
  - intro Hw. apply filter_In in Hw. destruct Hw as [_ Hw].
    apply Qgtb_true in Hw. rewrite Hz in Hw. now apply Qlt_irrefl in Hw.
Qed.

(** A winner, a loser and a zero-PnL trade: one win, two losses. *)
Lemma winners_and_losers_witness :
  let tr := fun pnl => Trade.mk "BTCUSDT" "LONG" 100 110 0 0 pnl 0 "BUY" in
  exists r,
    _calculate_metrics (Backtester.init 60) [tr 10; tr 0; tr (-5)] = Ok r /\
    BacktestResult.winning_trades r = 1%nat /\
    BacktestResult.losing_trades r = 2%nat.
Proof.
  intro tr.
  destruct (@winners_and_losers (Backtester.init 60) [tr 10; tr 0; tr (-5)])
    as [r [W [L [Hr _]]]]; [discriminate|].
  exists r. split; [exact Hr|].
  vm_compute in Hr. injection Hr as <-. split; reflexivity.
Defined.

(** C9. On the empty list the metrics are the zeroed result with an empty
    trade list.  On every list the metrics are returned, no division
    failing: [avg_profit] is 0 when no trade has [pnl > 0] and [avg_loss]
    is 0 when no trade has [pnl <= 0]. *)
Theorem metrics_total (self : Backtester.t) :
  _calculate_metrics self [] = Ok (BacktestResult.mk 0 0 0 0 0 0 0 0 []) /\
  forall trades,
    exists r,
      _calculate_metrics self trades = Ok r /\
      ((forall t, In t trades -> ~ winner t) ->
       BacktestResult.avg_profit r == 0) /\
      ((forall t, In t trades -> ~ loser t) ->
       BacktestResult.avg_loss r == 0).
Proof.
  split; [reflexivity|]. intro trades.
  destruct trades as [|t0 ts] eqn:Et.
  - eexists. split; [reflexivity|]. split; reflexivity.
  - rewrite <- Et. eexists. split.
    + apply calculate_metrics_eq. rewrite Et. discriminate.
    + cbn [BacktestResult.avg_profit BacktestResult.avg_loss]. split.
      * intro Hnone. rewrite filter_none; [reflexivity|].
        intros t Hin. destruct (Qgtb (Trade.pnl t) 0) eqn:E; [|reflexivity].
        apply winner_iff in E. exfalso. now apply (Hnone t).
      * intro Hnone. rewrite filter_none; [reflexivity|].
        intros t Hin.
        destruct (Qle_bool (Trade.pnl t) 0) eqn:E; [|reflexivity].
        apply loser_iff in E. exfalso. now apply (Hnone t).
Qed.

(** Only winners, and only losers: the other average is 0. *)
Lemma metrics_total_witness :
  let tr := fun pnl => Trade.mk "BTCUSDT" "LONG" 100 110 0 0 pnl 0 "BUY" in
  (exists r,
     _calculate_metrics (Backtester.init 60) [tr 10; tr 3] = Ok r /\
     BacktestResult.avg_loss r == 0) /\
  (exists r,
     _calculate_metrics (Backtester.init 60) [tr (-5); tr 0] = Ok r /\
     BacktestResult.avg_profit r == 0).
Proof.
  intro tr.
  destruct (metrics_total (Backtester.init 60)) as [_ H]. split.
  - destruct (H [tr 10; tr 3]) as [r [Hr [_ Hl]]].
    exists r. split; [exact Hr|]. apply Hl.
    intros t [<-|[<-|[]]]; unfold loser, tr; cbn; lra.
  - destruct (H [tr (-5); tr 0]) as [r [Hr [Hw _]]].
    exists r. split; [exact Hr|]. apply Hw.
    intros t [<-|[<-|[]]]; unfold winner, tr; cbn; lra.
Defined.

(* ------------------------------------------------------------------ *)
(** ** Scenarios *)

Lemma dict_set_tabulate (V : Type) (k : string) (F : string -> V)
    (ks : list string) :
  dict_set k (F k) (map (fun s => (s, F s)) ks) =
  map (fun s => (s, F s)) (if str_in k ks then ks else ks ++ [k]).
Proof.
  induction ks as [|a ks IH]; [reflexivity|].
  cbn [map dict_set str_in existsb]. fold (str_in k ks).
  destruct (String.eqb k a) eqn:E; cbn [orb].
  - apply String.eqb_eq in E. now subst.
  - rewrite IH. now destruct (str_in k ks).
Qed.

Lemma str_in_filter (f : string -> bool) (k : string) (l : list string) :
  f k = true -> str_in k (filter f l) = str_in k l.
Proof.
  intro Hk. unfold str_in. induction l as [|a l IH]; [reflexivity|].
  cbn [filter]. destruct (f a) eqn:Ea; cbn [existsb].
  - now rewrite IH.
  - rewrite IH. destruct (String.eqb k a) eqn:E; [|reflexivity].
    apply String.eqb_eq in E. congruence.
Qed.

(** The snapshot that [run_scenario] hands to the engine: the listed
    traders that have positions, each once, with their positions. *)
Lemma convert_scenario_eq (scenario : TestScenario.t) :
  convert_scenario scenario =
  (map convert_trader (TestScenario.traders scenario),
   map (fun uid => (uid, converted scenario uid))
       (filter (fun uid => truthy (converted scenario uid))
          (first_seen
             (map MockTrader.encrypted_uid (TestScenario.traders scenario))))).
Proof.
  unfold convert_scenario.
  induction (TestScenario.traders scenario) as [|mt l IH] using rev_ind;
    [reflexivity|].
  rewrite fold_left_app, IH. cbn [fold_left].
  unfold convert_step. cbn [fst snd].
  fold (converted scenario (MockTrader.encrypted_uid mt)).
  rewrite !map_app. cbn [map]. rewrite first_seen_snoc.
  set (uid := MockTrader.encrypted_uid mt).
  set (uids := map MockTrader.encrypted_uid l).
  set (nonempty := fun uid => truthy (converted scenario uid)).
  destruct (truthy (converted scenario uid)) eqn:Et.
  - f_equal.
    rewrite (dict_set_tabulate uid (converted scenario)).
    rewrite (str_in_filter nonempty) by exact Et.
    assert (Hin : str_in uid (first_seen uids) = str_in uid uids).
    { destruct (str_in uid uids) eqn:E.
      - apply str_in_In. apply first_seen_In. now apply str_in_In.
      - apply str_in_not_In. rewrite first_seen_In. now apply str_in_not_In. }
    rewrite Hin. destruct (str_in uid uids); [reflexivity|].
    rewrite filter_app. cbn [filter].
    change (nonempty uid) with (truthy (converted scenario uid)).
    now rewrite Et.
  - f_equal. destruct (str_in uid uids); [reflexivity|].
    rewrite filter_app. cbn [filter].
    change (nonempty uid) with (truthy (converted scenario uid)).
    rewrite Et. now rewrite app_nil_r.
Qed.

Lemma symbol_positions_flat (positions : dict (list Position.t))
    (s : string) :
  symbol_positions_of positions s =
  map snd (filter (on_symbol s) (all_positions positions)).
Proof.
  unfold symbol_positions_of, all_positions.
  induction positions as [|[uid l] rest IH]; [reflexivity|].
  cbn [flat_map fst snd]. rewrite filter_app, map_app, IH. f_equal.
  clear IH. induction l as [|pos l IHl]; [reflexivity|].
  cbn [filter map]. unfold on_symbol at 1, symbol_of. cbn [snd].
  destruct (String.eqb (Position.symbol pos) s); cbn [map snd];
    now rewrite IHl.
Qed.

Lemma symbol_positions_converted (scenario : TestScenario.t) (s : string) :
  symbol_positions_of (snd (convert_scenario scenario)) s =
  map convert_position (positions_on scenario s).
Proof.
  rewrite convert_scenario_eq. cbn [snd].
  unfold positions_on, listed_positions, symbol_positions_of.
  induction (first_seen
               (map MockTrader.encrypted_uid (TestScenario.traders scenario)))
    as [|uid ks IH]; [reflexivity|].
  cbn [filter flat_map]. rewrite filter_app, map_app, <- IH.
  assert (Hc : filter (fun pos => String.eqb (Position.symbol pos) s)
                 (converted scenario uid) =
               map convert_position
                 (filter (fun mp => String.eqb (MockPosition.symbol mp) s)
                    (dict_get_list uid (TestScenario.positions scenario)))).
  { unfold converted. now rewrite filter_map_comm. }
  destruct (truthy (converted scenario uid)) eqn:Et.
  - cbn [map flat_map snd]. now rewrite Hc.
  - rewrite <- Hc. destruct (converted scenario uid); [reflexivity|].
    discriminate.
Qed.

Lemma actionable_split (signal : string) :
  actionable signal =
  str_in signal ["STRONG_BUY"; "BUY"] || str_in signal ["STRONG_SELL"; "SELL"].
Proof.
  unfold actionable, str_in. cbn [existsb].
  now rewrite !orb_false_r, orb_assoc.
Qed.

(** The trade loop, when every record has positions and no actionable
    record has a zero mean entry price: one trade for each actionable
    record, in order. *)
Lemma make_trades_eq (date : Z) (positions : dict (list Position.t))
    (cs : list SymbolConsensus.t) (acc : list Trade.t) :
  (forall c, In c cs ->
     symbol_positions_of positions (SymbolConsensus.symbol c) <> []) ->
  (forall c, In c cs -> actionable (SymbolConsensus.signal c) = true ->
     ~ mean (map Position.entry_price
               (symbol_positions_of positions (SymbolConsensus.symbol c)))
       == 0) ->
  make_trades date positions cs acc =
  Ok (acc ++ map (trade_of date positions) (get_strong_signals cs)).
Proof.
  revert acc. induction cs as [|c cs IH]; intros acc Hsp Hnz.
  - cbn. now rewrite app_nil_r.
  - assert (IH' : forall acc',
        make_trades date positions cs acc' =
        Ok (acc' ++ map (trade_of date positions) (get_strong_signals cs))).
    { intro acc'. apply IH; intros c' Hc'.
      - apply Hsp. now right.
      - apply Hnz. now right. }
    clear IH.
    specialize (Hsp c (or_introl eq_refl)).
    specialize (Hnz c (or_introl eq_refl)).
    cbn [make_trades get_strong_signals filter].
    fold (get_strong_signals cs).
    unfold mean in Hnz. rewrite length_map in Hnz.
    assert (Htrade : forall side,
      side = str_in (SymbolConsensus.signal c) ["STRONG_BUY"; "BUY"] ->
      trade_of date positions c =
      let sp := symbol_positions_of positions (SymbolConsensus.symbol c) in
      let e := sum (map Position.entry_price sp) / Q_of_nat (List.length sp) in
      let x := sum (map Position.mark_price sp) / Q_of_nat (List.length sp) in
      if side then
        Trade.mk (SymbolConsensus.symbol c) "LONG" e x date date
          (x - e) ((x - e) / e * 100) (SymbolConsensus.signal c)
      else
        Trade.mk (SymbolConsensus.symbol c) "SHORT" e x date date
          (e - x) ((e - x) / e * 100) (SymbolConsensus.signal c)).
    { intros side ->. unfold trade_of, mean. now rewrite !length_map. }
    set (sp := symbol_positions_of positions (SymbolConsensus.symbol c)) in *.
    assert (Hlen : List.length sp <> 0%nat).
    { destruct sp; [congruence | discriminate]. }
    assert (Ht : truthy sp = true).
    { destruct sp; [congruence | reflexivity]. }
    rewrite Ht. cbn [negb]. rewrite !truediv_len by assumption. cbn [bind].
    unfold trade_direction. rewrite actionable_split in *.
    destruct (str_in (SymbolConsensus.signal c) ["STRONG_BUY"; "BUY"]) eqn:Eb.
    + cbn [orb] in *. rewrite truediv_ok by now apply Hnz. cbn [bind].
      rewrite IH', <- app_assoc. cbn [map app].
      now rewrite (Htrade true eq_refl).
    + cbn [orb] in *.
      destruct (str_in (SymbolConsensus.signal c) ["STRONG_SELL"; "SELL"])
        eqn:Es.
      * rewrite truediv_ok by now apply Hnz. cbn [bind].
        rewrite IH', <- app_assoc. cbn [map app].
        now rewrite (Htrade false eq_refl).
      * cbn [bind]. apply IH'.
Qed.

(** Dropping elements keeps the images distinct. *)
Lemma NoDup_map_filter (X Y : Type) (image : X -> Y) (keep : X -> bool)
    (xs : list X) (Hdistinct : NoDup (map image xs)) :
  NoDup (map image (filter keep xs)).
Proof.
  induction xs as [|x xs IH]; [constructor|].
  cbn [map] in Hdistinct. apply NoDup_cons_iff in Hdistinct.
  destruct Hdistinct as [Hfresh Hrest].
  cbn [filter]. destruct (keep x); [|now apply IH].
  cbn [map]. constructor; [|now apply IH].
  intro Hin. apply Hfresh. apply in_map_iff in Hin.
  destruct Hin as [y [Hy Hf]]. apply filter_In in Hf.
  apply in_map_iff. exists y. tauto.
Qed.

(** The output has one record for each symbol. *)
Lemma calculate_consensus_NoDup (self : ConsensusEngine.t)
    (tracked : option (list string)) (positions : dict (list Position.t)) :
  NoDup (map SymbolConsensus.symbol
           (sort_reverse SymbolConsensus.total_count
              (consensus_records self tracked positions))).
Proof.
  eapply Permutation_NoDup.
  - apply Permutation_sym, Permutation_map, sort_reverse_perm.
  - unfold consensus_records. rewrite consensus_of_symbol.
    apply first_seen_NoDup.
Qed.

Lemma NoDup_map_inj (A B : Type) (f : A -> B) (l : list A) (a b : A) :
  NoDup (map f l) -> In a l -> In b l -> f a = f b -> a = b.
Proof.
  induction l as [|x l IH]; intros Hnd Ha Hb Hf; [contradiction|].
  cbn [map] in Hnd. inversion Hnd as [|y l' Hn Hd]; subst.
  destruct Ha as [->|Ha], Hb as [->|Hb]; try reflexivity.
  - exfalso. apply Hn. rewrite Hf. now apply in_map.
  - exfalso. apply Hn. rewrite <- Hf. now apply in_map.
  - now apply IH.
Qed.

Lemma Forall2_map_right (A B : Type) (P : A -> B -> Prop) (f : A -> B)
    (l : list A) :
  (forall a, In a l -> P a (f a)) -> Forall2 P l (map f l).
Proof.
  induction l as [|a l IH]; intro H; [constructor|].
  cbn [map]. constructor; [apply H; now left|].
  apply IH. intros; apply H; now right.
Qed.

Lemma trade_of_symbol (date : Z) (positions : dict (list Position.t))
    (l : list SymbolConsensus.t) :
  map Trade.symbol (map (trade_of date positions) l) =
  map SymbolConsensus.symbol l.
Proof.
  rewrite map_map. apply map_ext. intro c. unfold trade_of.
  now destruct (str_in (SymbolConsensus.signal c) ["STRONG_BUY"; "BUY"]).
Qed.

Lemma mean_entry_converted (scenario : TestScenario.t) (s : string) :
  mean (map Position.entry_price
          (symbol_positions_of (snd (convert_scenario scenario)) s)) =
  avg_entry scenario s.
Proof. rewrite symbol_positions_converted, map_map. reflexivity. Qed.

Lemma mean_exit_converted (scenario : TestScenario.t) (s : string) :
  mean (map Position.mark_price
          (symbol_positions_of (snd (convert_scenario scenario)) s)) =
  avg_exit scenario s.
Proof. rewrite symbol_positions_converted, map_map. reflexivity. Qed.

Lemma buy_not_sell (signal : string) :
  In signal ["STRONG_BUY"; "BUY"] -> In signal ["STRONG_SELL"; "SELL"] ->
  False.
Proof.
  intros [<-|[<-|[]]] [H|[H|[]]]; discriminate H.
Qed.

Lemma trade_of_matches (scenario : TestScenario.t) (c : SymbolConsensus.t) :
  actionable (SymbolConsensus.signal c) = true ->
  trade_matches scenario c
    (trade_of (TestScenario.date scenario) (snd (convert_scenario scenario))
       c).
Proof.
  intro Ha. rewrite actionable_split in Ha.
  unfold trade_of. cbn zeta.
  rewrite mean_entry_converted, mean_exit_converted.
  unfold trade_matches.
  destruct (str_in (SymbolConsensus.signal c) ["STRONG_BUY"; "BUY"]) eqn:Eb;
    cbn [Trade.symbol Trade.signal Trade.entry_price Trade.exit_price
         Trade.side Trade.pnl Trade.pnl_percent].
  - apply str_in_In in Eb.
    split; [reflexivity|]. split; [reflexivity|].
    split; [reflexivity|]. split; [reflexivity|].
    split; [intros _; split; reflexivity|].
    split; [|reflexivity].
    intro Hs. exfalso. exact (buy_not_sell Eb Hs).
  - cbn [orb] in Ha. apply str_in_not_In in Eb.
    split; [reflexivity|]. split; [reflexivity|].
    split; [reflexivity|]. split; [reflexivity|].
    split; [intro Hb; contradiction|].
    split; [|reflexivity].
    intros _. split; reflexivity.
Qed.

(** C4, as the code has it.  The engine returns the consensus of the
    scenario; provided no actionable symbol has a zero mean entry price,
    [run_scenario] returns the trades, one for each record with an
    actionable signal, in order: entry and exit price are the means over
    all the listed positions on the symbol, whatever their side; the side
    is LONG with [pnl = exit - entry] for the BUY family, SHORT with
    [pnl = entry - exit] for the SELL family; [pnl_percent] is
    [pnl / entry * 100]; no two trades share a symbol and no trade is on
    the symbol of a record that is not actionable. *)
Theorem run_scenario_trades (self : Backtester.t)
    (scenario : TestScenario.t) :
  exists out,
    calculate_consensus (Backtester.engine self)
      (fst (convert_scenario scenario)) (snd (convert_scenario scenario))
      None = Ok out /\
    ((forall c, In c out -> actionable (SymbolConsensus.signal c) = true ->
        ~ avg_entry scenario (SymbolConsensus.symbol c) == 0) ->
     exists trades,
       run_scenario self scenario = Ok trades /\
       Forall2 (trade_matches scenario) (get_strong_signals out) trades /\
       NoDup (map Trade.symbol trades) /\
       (forall c, In c out ->
          actionable (SymbolConsensus.signal c) = false ->
          ~ In (SymbolConsensus.symbol c) (map Trade.symbol trades))).
Proof.
  eexists. split; [apply calculate_consensus_eq|].
  set (positions := snd (convert_scenario scenario)).
  set (out := sort_reverse SymbolConsensus.total_count
                (consensus_records (Backtester.engine self) None positions)).
  intro Hnz.
  exists (map (trade_of (TestScenario.date scenario) positions)
            (get_strong_signals out)).
  assert (Hnd : NoDup (map SymbolConsensus.symbol out))
    by apply calculate_consensus_NoDup.
  split; [|split; [|split]].
  - unfold run_scenario. fold positions.
    rewrite calculate_consensus_eq. cbn [bind]. fold out.
    rewrite make_trades_eq; [reflexivity | | ].
    + intros c Hc. unfold out in Hc.
      apply sort_reverse_In, consensus_records_In in Hc.
      destruct Hc as [s [Hs ->]].
      cbn [consensus_of SymbolConsensus.symbol].
      rewrite symbol_positions_flat. rewrite kept_None in Hs.
      apply on_symbol_present in Hs. intro He. apply Hs.
      now rewrite <- (length_map snd), He.
    + intros c Hc Ha. unfold positions.
      rewrite mean_entry_converted. now apply Hnz.
  - apply Forall2_map_right. intros c Hc.
    apply filter_In in Hc. now apply trade_of_matches.
  - rewrite trade_of_symbol. now apply NoDup_map_filter.
  - intros c Hc Ha Hin. rewrite trade_of_symbol in Hin.
    apply in_map_iff in Hin. destruct Hin as [c' [Hs Hc']].
    apply filter_In in Hc'. destruct Hc' as [Hc' Ha'].
    assert (c' = c) by (eapply NoDup_map_inj; eassumption).
    subst c'. congruence.
Qed.

(** The bull-run scenario: one LONG trade from 40300 to 44000. *)
Lemma run_scenario_trades_witness :
  exists t,
    run_scenario (Backtester.init 60) get_scenario_1_btc_bull_run = Ok [t] /\
    Trade.side t = "LONG" /\
    Trade.entry_price t == 40300 /\
    Trade.exit_price t == 44000 /\
    Trade.pnl t == 3700.
Proof.
  destruct (run_scenario_trades (Backtester.init 60)
              get_scenario_1_btc_bull_run) as [out [Hout H]].
  vm_compute in Hout. injection Hout as <-.
  destruct H as [trades [Hrun [Hm _]]].
  { intros c [<-|[]] _. vm_compute. discriminate. }
  inversion Hm as [|c t l l' Hct Hrest]; subst.
  inversion Hrest; subst.
  exists t. split; [exact Hrun|].
  destruct Hct as [_ [_ [He [Hx [Hbuy _]]]]].
  destruct Hbuy as [Hside Hpnl]; [now left|].
  assert (He' : Trade.entry_price t == 40300).
  { rewrite He. vm_compute. reflexivity. }
  assert (Hx' : Trade.exit_price t == 44000).
  { rewrite Hx. vm_compute. reflexivity. }
  repeat split; try assumption.
  rewrite Hpnl, He', Hx'. reflexivity.
Defined.

(** The claim as stated fails when the entry prices of an actionable
    symbol average to zero: the signal is STRONG_BUY and no trade is
    emitted, the percentage division raising. *)
Lemma zero_entry_counterexample :
  let scenario :=
    TestScenario.mk "Zero entry" "" 0
      [MockTrader.mk "t1" "ProTrader1" 1 250 70]
      [("t1", [MockPosition.mk "BTCUSDT" "LONG" 0 44000 0 0 10])] [] in
  (exists c,
     calculate_consensus (ConsensusEngine.mk 60)
       (fst (convert_scenario scenario)) (snd (convert_scenario scenario))
       None = Ok [c] /\
     SymbolConsensus.symbol c = "BTCUSDT" /\
     SymbolConsensus.signal c = "STRONG_BUY") /\
  run_scenario (Backtester.init 60) scenario = Raise ZeroDivisionError.
Proof.
  intro scenario. split.
  - eexists. split; [vm_compute; reflexivity|]. split; reflexivity.
  - vm_compute. reflexivity.
Qed.

(** The 50/50 scenario: NEUTRAL, and no trade. *)
Example mixed_signals_no_trade :
  (exists c,
     calculate_consensus (ConsensusEngine.mk 60)
       (fst (convert_scenario get_scenario_3_mixed_signals))
       (snd (convert_scenario get_scenario_3_mixed_signals)) None = Ok [c] /\
     SymbolConsensus.long_percent c == 50 /\
     SymbolConsensus.signal c = "NEUTRAL") /\
  run_scenario (Backtester.init 60) get_scenario_3_mixed_signals = Ok [].
Proof.
  split.
  - eexists. split; [vm_compute; reflexivity|]. split; reflexivity.
  - vm_compute. reflexivity.
Qed.

(** The trade loop raises as soon as an actionable record has a zero mean
    entry price. *)
Lemma make_trades_raises (date : Z) (positions : dict (list Position.t))
    (cs : list SymbolConsensus.t) (acc : list Trade.t) :
  (forall c, In c cs ->
     symbol_positions_of positions (SymbolConsensus.symbol c) <> []) ->
  (exists c, In c cs /\ actionable (SymbolConsensus.signal c) = true /\
     mean (map Position.entry_price
             (symbol_positions_of positions (SymbolConsensus.symbol c)))
     == 0) ->
  make_trades date positions cs acc = Raise ZeroDivisionError.
Proof.
  revert acc. induction cs as [|c cs IH]; intros acc Hsp [c0 [Hin [Ha Hz]]];
    [contradiction|].
  assert (IH' : c0 <> c -> forall acc',
             make_trades date positions cs acc' = Raise ZeroDivisionError).
  { intros Hne acc'. apply IH.
    - intros c' Hc'. apply Hsp. now right.
    - exists c0. destruct Hin as [->|Hin]; [congruence | auto]. }
  clear IH. specialize (Hsp c (or_introl eq_refl)).
  cbn [make_trades]. unfold mean in Hz. rewrite length_map in Hz.
  set (sp := symbol_positions_of positions (SymbolConsensus.symbol c)) in *.
  assert (Hlen : List.length sp <> 0%nat).
  { destruct sp; [congruence | discriminate]. }
  assert (Ht : truthy sp = true).
  { destruct sp; [congruence | reflexivity]. }
  rewrite Ht. cbn [negb]. rewrite !truediv_len by assumption. cbn [bind].
  unfold trade_direction, truediv.
  destruct (Qeq_bool (sum (map Position.entry_price sp) /
                      Q_of_nat (List.length sp)) 0) eqn:Ez.
  - (* this record's mean entry price is zero *)
    destruct (str_in (SymbolConsensus.signal c) ["STRONG_BUY"; "BUY"]) eqn:Eb;
      [reflexivity|].
    destruct (str_in (SymbolConsensus.signal c) ["STRONG_SELL"; "SELL"])
      eqn:Es; [reflexivity|].
    cbn [bind]. apply IH'. intros ->.
    rewrite actionable_split, Eb, Es in Ha. discriminate.
  - (* it is not: the zero is further on *)
    assert (Hne : c0 <> c).
    { intros ->. subst sp. apply Qeq_bool_iff in Hz. congruence. }
    destruct (str_in (SymbolConsensus.signal c) ["STRONG_BUY"; "BUY"]);
      [cbn [bind]; now apply IH'|].
    destruct (str_in (SymbolConsensus.signal c) ["STRONG_SELL"; "SELL"]);
      cbn [bind]; now apply IH'.
Qed.

(** [run_scenario] raises exactly in that case. *)
Lemma run_scenario_zero_entry_raises (self : Backtester.t)
    (scenario : TestScenario.t) (out : list SymbolConsensus.t) :
  calculate_consensus (Backtester.engine self)
    (fst (convert_scenario scenario)) (snd (convert_scenario scenario))
    None = Ok out ->
  (exists c, In c out /\ actionable (SymbolConsensus.signal c) = true /\
             avg_entry scenario (SymbolConsensus.symbol c) == 0) ->
  run_scenario self scenario = Raise ZeroDivisionError.
Proof.
  intros Hout [c [Hin [Ha Hz]]]. unfold run_scenario. rewrite Hout.
  cbn [bind]. apply make_trades_raises.
  - intros c' Hc'. rewrite calculate_consensus_eq in Hout.
    injection Hout as <-.
    apply sort_reverse_In, consensus_records_In in Hc'.
    destruct Hc' as [s [Hs ->]].
    cbn [consensus_of SymbolConsensus.symbol].
    rewrite symbol_positions_flat. rewrite kept_None in Hs.
    apply on_symbol_present in Hs. intro He. apply Hs.
    now rewrite <- (length_map snd), He.
  - exists c. rewrite mean_entry_converted. auto.
Qed.

(* ------------------------------------------------------------------ *)
(** * Further properties of the code *)

(** ** Signals of the records *)

Lemma get_signal_values (self : ConsensusEngine.t) (l s : Q) :
  In (_get_signal self l s)
     ["STRONG_BUY"; "BUY"; "STRONG_SELL"; "SELL"; "NEUTRAL"].
Proof.
  unfold _get_signal.
  destruct (Qgeb l 70); [now left|].
  destruct (Qgeb l (ConsensusEngine.min_consensus self));
    [right; now left|].
  destruct (Qgeb s 70); [right; right; now left|].
  destruct (Qgeb s (ConsensusEngine.min_consensus self));
    [right; right; right; now left|].
  right; right; right; right; now left.
Qed.

Lemma actionable_not_neutral (signal : string) :
  In signal ["STRONG_BUY"; "BUY"; "STRONG_SELL"; "SELL"; "NEUTRAL"] ->
  actionable signal = negb (String.eqb signal "NEUTRAL").
Proof.
  intros [<-|[<-|[<-|[<-|[<-|[]]]]]]; reflexivity.
Qed.

(** X1. The signal of every record of the output is the classification of the
    record's own percentages, hence one of the five signals, and
    [get_strong_signals] keeps exactly the records that are not
    NEUTRAL. *)
Theorem consensus_signals (self : ConsensusEngine.t)
    (traders : list Trader.t) (positions : dict (list Position.t))
    (tracked_symbols : option (list string)) :
  exists out,
    calculate_consensus self traders positions tracked_symbols = Ok out /\
    Forall
      (fun c =>
         SymbolConsensus.signal c =
           _get_signal self (SymbolConsensus.long_percent c)
             (SymbolConsensus.short_percent c) /\
         In (SymbolConsensus.signal c)
            ["STRONG_BUY"; "BUY"; "STRONG_SELL"; "SELL"; "NEUTRAL"])
      out /\
    get_strong_signals out =
    filter (fun c => negb (String.eqb (SymbolConsensus.signal c) "NEUTRAL"))
           out.
Proof.
  destruct (calculate_consensus_Forall
              (fun c =>
                 SymbolConsensus.signal c =
                   _get_signal self (SymbolConsensus.long_percent c)
                     (SymbolConsensus.short_percent c) /\
                 In (SymbolConsensus.signal c)
                    ["STRONG_BUY"; "BUY"; "STRONG_SELL"; "SELL"; "NEUTRAL"])
              self traders positions tracked_symbols) as [out [Hout Hall]].
  { intros s _. split; [reflexivity|].
    cbn [consensus_of SymbolConsensus.signal]. apply get_signal_values. }
  exists out. split; [assumption|]. split; [assumption|].
  unfold get_strong_signals. apply filter_ext_in. intros c Hc.
  rewrite Forall_forall in Hall. destruct (Hall c Hc) as [_ Hin].
  now apply actionable_not_neutral.
Qed.

(** ** Percentages of the records *)

Lemma Q_of_nat_nonneg (n : nat) : 0 <= Q_of_nat n.
Proof.
  change (inject_Z 0 <= inject_Z (Z.of_nat n)). rewrite <- Zle_Qle. lia.
Qed.

Lemma Q_of_nat_pos (n : nat) : n <> 0%nat -> 0 < Q_of_nat n.
Proof.
  intro Hn. change (inject_Z 0 < inject_Z (Z.of_nat n)).
  rewrite <- Zlt_Qlt. lia.
Qed.

Lemma Q_of_nat_le (a b : nat) : (a <= b)%nat -> Q_of_nat a <= Q_of_nat b.
Proof.
  intro H. unfold Q_of_nat. rewrite <- Zle_Qle. lia.
Qed.

Lemma Q_of_nat_lt_inv (a b : nat) : Q_of_nat a < Q_of_nat b -> (a < b)%nat.
Proof.
  unfold Q_of_nat. rewrite <- Zlt_Qlt. lia.
Qed.

(** A share of a positive total, as a percentage, is between 0 and 100. *)
Lemma percent_bounds (a t : nat) :
  (a <= t)%nat -> t <> 0%nat ->
  0 <= Q_of_nat a / Q_of_nat t * 100 <= 100.
Proof.
  intros Hle Ht.
  pose proof (Q_of_nat_pos Ht) as Hpos.
  assert (H0 : 0 <= Q_of_nat a / Q_of_nat t).
  { apply Qle_shift_div_l; [assumption|].
    rewrite Qmult_0_l. apply Q_of_nat_nonneg. }
  assert (H1 : Q_of_nat a / Q_of_nat t <= 1).
  { apply Qle_shift_div_r; [assumption|].
    rewrite Qmult_1_l. now apply Q_of_nat_le. }
  split; lra.
Qed.

(** X2. In every record of the output each percentage is the count of its
    side over [total_count], times 100, and lies between 0 and 100. *)
Theorem consensus_percentages (self : ConsensusEngine.t)
    (traders : list Trader.t) (positions : dict (list Position.t))
    (tracked_symbols : option (list string)) :
  exists out,
    calculate_consensus self traders positions tracked_symbols = Ok out /\
    Forall
      (fun c =>
         SymbolConsensus.long_percent c ==
           Q_of_nat (SymbolConsensus.long_count c) /
           Q_of_nat (SymbolConsensus.total_count c) * 100 /\
         SymbolConsensus.short_percent c ==
           Q_of_nat (SymbolConsensus.short_count c) /
           Q_of_nat (SymbolConsensus.total_count c) * 100 /\
         0 <= SymbolConsensus.long_percent c <= 100 /\
         0 <= SymbolConsensus.short_percent c <= 100)
      out.
Proof.
  apply calculate_consensus_Forall. intros s Hs.
  set (ps := kept tracked_symbols (all_positions positions)) in *.
  assert (Htot : (List.length (longs_of s ps) +
                  List.length (shorts_of s ps))%nat <> 0%nat).
  { rewrite sides_partition. now apply on_symbol_present. }
  cbn [consensus_of SymbolConsensus.long_percent SymbolConsensus.short_percent
       SymbolConsensus.long_count SymbolConsensus.short_count
       SymbolConsensus.total_count].
  split; [reflexivity|]. split; [reflexivity|].
  split; apply percent_bounds; solve [lia | assumption].
Qed.

(** ** Signal and majority *)

Lemma get_signal_buy (self : ConsensusEngine.t) (l s : Q) :
  In (_get_signal self l s) ["STRONG_BUY"; "BUY"] ->
  70 <= l \/ ConsensusEngine.min_consensus self <= l.
Proof.
  unfold _get_signal.
  destruct (Qgeb l 70) eqn:E1; [left; now apply Qgeb_true|].
  destruct (Qgeb l (ConsensusEngine.min_consensus self)) eqn:E2;
    [right; now apply Qgeb_true|].
  destruct (Qgeb s 70); [intros [H|[H|[]]]; discriminate H|].
  destruct (Qgeb s (ConsensusEngine.min_consensus self));
    intros [H|[H|[]]]; discriminate H.
Qed.

Lemma get_signal_sell (self : ConsensusEngine.t) (l s : Q) :
  In (_get_signal self l s) ["STRONG_SELL"; "SELL"] ->
  70 <= s \/ ConsensusEngine.min_consensus self <= s.
Proof.
  unfold _get_signal.
  destruct (Qgeb l 70); [intros [H|[H|[]]]; discriminate H|].
  destruct (Qgeb l (ConsensusEngine.min_consensus self));
    [intros [H|[H|[]]]; discriminate H|].
  destruct (Qgeb s 70) eqn:E3; [left; now apply Qgeb_true|].
  destruct (Qgeb s (ConsensusEngine.min_consensus self)) eqn:E4;
    [right; now apply Qgeb_true|].
  intros [H|[H|[]]]; discriminate H.
Qed.

Lemma percent_lt_inv (a b t : nat) :
  t <> 0%nat ->
  Q_of_nat b / Q_of_nat t * 100 < Q_of_nat a / Q_of_nat t * 100 ->
  (b < a)%nat.
Proof.
  intros Ht H. apply Q_of_nat_lt_inv.
  pose proof (Q_of_nat_pos Ht) as Hpos.
  assert (Hq : Q_of_nat b / Q_of_nat t < Q_of_nat a / Q_of_nat t) by lra.
  unfold Qdiv in Hq. apply Qmult_lt_r in Hq; [assumption|].
  now apply Qinv_lt_0_compat.
Qed.

(** X3. With a threshold above 50 a signal never goes against the majority:
    a record with a BUY or STRONG_BUY signal has more longs than shorts,
    one with a SELL or STRONG_SELL signal more shorts than longs. *)
Theorem signal_follows_majority (self : ConsensusEngine.t)
    (traders : list Trader.t) (positions : dict (list Position.t))
    (tracked_symbols : option (list string)) :
  50 < ConsensusEngine.min_consensus self ->
  exists out,
    calculate_consensus self traders positions tracked_symbols = Ok out /\
    Forall
      (fun c =>
         (In (SymbolConsensus.signal c) ["STRONG_BUY"; "BUY"] ->
          (SymbolConsensus.short_count c < SymbolConsensus.long_count c)%nat)
         /\
         (In (SymbolConsensus.signal c) ["STRONG_SELL"; "SELL"] ->
          (SymbolConsensus.long_count c < SymbolConsensus.short_count c)%nat))
      out.
Proof.
  intro HT. apply calculate_consensus_Forall. intros s Hs.
  set (ps := kept tracked_symbols (all_positions positions)) in *.
  set (a := List.length (longs_of s ps)).
  set (b := List.length (shorts_of s ps)).
  assert (Htot : (a + b)%nat <> 0%nat).
  { unfold a, b. rewrite sides_partition. now apply on_symbol_present. }
  pose proof (percentages_complementary a b Htot) as Hsum.
  cbn [consensus_of SymbolConsensus.signal SymbolConsensus.long_count
       SymbolConsensus.short_count].
  fold a b. split; intro Hsig.
  - apply get_signal_buy in Hsig.
    apply (@percent_lt_inv a b (a + b) Htot).
    destruct Hsig; lra.
  - apply get_signal_sell in Hsig.
    apply (@percent_lt_inv b a (a + b) Htot).
    destruct Hsig; lra.
Qed.

(** Three longs against two shorts at the default threshold: BUY. *)
Lemma signal_follows_majority_witness :
  let p := fun side => Position.mk "BTCUSDT" side 100 110 5 0 1 0 in
  exists c,
    calculate_consensus (ConsensusEngine.mk 60) []
      [("u1", [p "LONG"; p "SHORT"]); ("u2", [p "LONG"; p "SHORT"; p "LONG"])]
      None = Ok [c] /\
    SymbolConsensus.signal c = "BUY" /\
    (SymbolConsensus.short_count c < SymbolConsensus.long_count c)%nat.
Proof.
  intro p.
  destruct (@signal_follows_majority (ConsensusEngine.mk 60) []
              [("u1", [p "LONG"; p "SHORT"]);
               ("u2", [p "LONG"; p "SHORT"; p "LONG"])] None)
    as [out [Hout Hall]].
  { cbn. lra. }
  pose proof Hout as Hval. vm_compute in Hval. injection Hval as <-.
  eexists. split; [exact Hout|]. split; [reflexivity|].
  apply Forall_inv in Hall. destruct Hall as [Hbuy _].
  apply Hbuy. right. now left.
Defined.

(** With a threshold of 50 or less the order of the tests lets a BUY
    through against the majority: two longs, three shorts, threshold 40. *)
Example low_threshold_buys_against_majority :
  let p := fun side => Position.mk "BTCUSDT" side 100 110 5 0 1 0 in
  exists c,
    calculate_consensus (ConsensusEngine.mk 40) []
      [("u1", [p "LONG"; p "SHORT"]); ("u2", [p "LONG"; p "SHORT"; p "SHORT"])]
      None = Ok [c] /\
    SymbolConsensus.signal c = "BUY" /\
    SymbolConsensus.long_count c = 2%nat /\
    SymbolConsensus.short_count c = 3%nat.
Proof.
  intro p. eexists. split; [vm_compute; reflexivity|]. repeat split.
Qed.

(** ** Symbols of the records *)

(** X4. The output has one record for each symbol that has a position passing
    the allowlist, and no other record; it is empty exactly when no
    position passes. *)
Theorem consensus_symbols (self : ConsensusEngine.t)
    (traders : list Trader.t) (positions : dict (list Position.t))
    (tracked_symbols : option (list string)) :
  let ps := kept tracked_symbols (all_positions positions) in
  exists out,
    calculate_consensus self traders positions tracked_symbols = Ok out /\
    NoDup (map SymbolConsensus.symbol out) /\
    (forall s, In s (map SymbolConsensus.symbol out) <->
               exists up, In up ps /\ Position.symbol (snd up) = s) /\
    (out = [] <-> ps = []).
Proof.
  intro ps. eexists. split; [apply calculate_consensus_eq|].
  split; [apply calculate_consensus_NoDup|].
  assert (Hsym : forall s,
    In s (map SymbolConsensus.symbol
            (sort_reverse SymbolConsensus.total_count
               (consensus_records self tracked_symbols positions))) <->
    In s (map symbol_of ps)).
  { intro s. split; intro H.
    - apply in_map_iff in H. destruct H as [c [<- Hc]].
      apply sort_reverse_In, consensus_records_In in Hc.
      destruct Hc as [s' [Hs' ->]]. exact Hs'.
    - apply in_map_iff. exists (consensus_of self ps s).
      split; [reflexivity|].
      apply sort_reverse_In, consensus_records_In. now exists s. }
  split.
  - intro s. rewrite Hsym, in_map_iff.
    split; intros [up [H1 H2]]; exists up; tauto.
  - split; intro H.
    + destruct ps as [|up ps'] eqn:E; [reflexivity|].
      assert (Hin : In (symbol_of up) (map symbol_of (up :: ps')))
        by now left.
      apply Hsym in Hin. rewrite H in Hin. contradiction.
    + destruct (sort_reverse SymbolConsensus.total_count
                  (consensus_records self tracked_symbols positions))
        as [|c l] eqn:E; [reflexivity|].
      assert (Hin : In (SymbolConsensus.symbol c)
                       (map SymbolConsensus.symbol (c :: l))) by now left.
      apply Hsym in Hin. rewrite H in Hin. contradiction.
Qed.

(** ** Every position is counted once *)

Lemma list_sum_perm (l l' : list nat) :
  Permutation l l' -> list_sum l = list_sum l'.
Proof.
  unfold list_sum. induction 1; cbn [fold_right] in *; lia.
Qed.

Lemma list_sum_without (g : string -> nat) (s0 : string) (l : list string) :
  NoDup l ->
  list_sum (map g l) =
  ((if str_in s0 l then g s0 else 0) +
   list_sum (map g (filter (fun s => negb (String.eqb s s0)) l)))%nat.
Proof.
  induction l as [|a l IH]; intro Hnd; [reflexivity|].
  apply NoDup_cons_iff in Hnd. destruct Hnd as [Ha Hnd].
  specialize (IH Hnd).
  cbn [map filter str_in existsb]. fold (str_in s0 l).
  rewrite (String.eqb_sym s0 a).
  destruct (String.eqb a s0) eqn:E; cbn [negb orb map].
  - apply String.eqb_eq in E. subst a.
    apply str_in_not_In in Ha. rewrite Ha in IH.
    change (list_sum (g s0 :: map g l)) with (g s0 + list_sum (map g l))%nat.
    lia.
  - change (list_sum (g a :: map g l)) with (g a + list_sum (map g l))%nat.
    change (list_sum (g a :: ?x)) with (g a + list_sum x)%nat.
    cbn [list_sum fold_right] in *. lia.
Qed.

Lemma count_by_symbol (ps : list (string * Position.t)) :
  list_sum
    (map (fun s => List.length (filter (on_symbol s) ps))
         (first_seen (map symbol_of ps))) =
  List.length ps.
Proof.
  induction ps as [|up ps IH]; [reflexivity|].
  rewrite (list_sum_without
             (fun s => List.length (filter (on_symbol s) ps)) (symbol_of up)
             (first_seen_NoDup (map symbol_of ps))) in IH.
  cbn [map first_seen].
  set (s0 := symbol_of up) in *.
  set (fs := first_seen (map symbol_of ps)) in *.
  set (others := filter (fun s => negb (String.eqb s s0)) fs) in *.
  assert (Hrest :
    map (fun s => List.length (filter (on_symbol s) (up :: ps))) others =
    map (fun s => List.length (filter (on_symbol s) ps)) others).
  { apply map_ext_in. intros s Hs. apply filter_In in Hs.
    destruct Hs as [_ Hs]. apply negb_true_iff in Hs.
    cbn [filter]. unfold on_symbol at 1. fold s0.
    rewrite String.eqb_sym, Hs. reflexivity. }
  change (list_sum
            (List.length (filter (on_symbol s0) (up :: ps)) ::
             map (fun s => List.length (filter (on_symbol s) (up :: ps)))
                 others) =
          S (List.length ps)).
  rewrite Hrest.
  change (list_sum (?x :: ?l)) with (x + list_sum l)%nat.
  cbn [filter].
  assert (E0 : on_symbol s0 up = true) by apply String.eqb_refl.
  rewrite E0. cbn [List.length].
  destruct (str_in s0 fs) eqn:Ein; [lia|].
  apply str_in_not_In in Ein. unfold fs in Ein. rewrite first_seen_In in Ein.
  rewrite (filter_none (on_symbol s0) ps); [cbn [List.length]; lia|].
  intros up' Hup'. unfold on_symbol. apply String.eqb_neq.
  intro Heq. apply Ein. apply in_map_iff. now exists up'.
Qed.

(** X5. The counts of the records add up to the number of positions that pass
    the allowlist: each is counted in one record, once. *)
Theorem positions_counted_once (self : ConsensusEngine.t)
    (traders : list Trader.t) (positions : dict (list Position.t))
    (tracked_symbols : option (list string)) :
  exists out,
    calculate_consensus self traders positions tracked_symbols = Ok out /\
    list_sum (map SymbolConsensus.total_count out) =
    List.length (kept tracked_symbols (all_positions positions)).
Proof.
  eexists. split; [apply calculate_consensus_eq|].
  rewrite (list_sum_perm
             (Permutation_map SymbolConsensus.total_count
                (sort_reverse_perm SymbolConsensus.total_count
                   (consensus_records self tracked_symbols positions)))).
  unfold consensus_records. rewrite map_map.
  rewrite <- (count_by_symbol (kept tracked_symbols (all_positions positions))).
  f_equal. apply map_ext. intro s. cbn. apply sides_partition.
Qed.

(** ** Positions, not traders, are counted *)

Lemma filter_on_snd (A B : Type) (f : A * B -> bool) (g : B -> bool)
    (l : list (A * B)) :
  (forall ab, f ab = g (snd ab)) ->
  map snd (filter f l) = filter g (map snd l).
Proof.
  intro Hfg. induction l as [|ab l IH]; [reflexivity|].
  cbn [filter map]. rewrite Hfg.
  destruct (g (snd ab)); cbn [map]; now rewrite IH.
Qed.

Lemma longs_of_snd (s : string) (ps ps' : list (string * Position.t)) :
  map snd ps = map snd ps' ->
  map snd (longs_of s ps) = map snd (longs_of s ps').
Proof.
  intro H. unfold longs_of.
  rewrite !(@filter_on_snd _ _ _
              (fun p => String.eqb (Position.symbol p) s &&
                        String.eqb (Position.side p) "LONG"))
    by reflexivity.
  now rewrite H.
Qed.

Lemma shorts_of_snd (s : string) (ps ps' : list (string * Position.t)) :
  map snd ps = map snd ps' ->
  map snd (shorts_of s ps) = map snd (shorts_of s ps').
Proof.
  intro H. unfold shorts_of.
  rewrite !(@filter_on_snd _ _ _
              (fun p => String.eqb (Position.symbol p) s &&
                        negb (String.eqb (Position.side p) "LONG")))
    by reflexivity.
  now rewrite H.
Qed.

Lemma consensus_of_snd (self : ConsensusEngine.t)
    (ps ps' : list (string * Position.t)) (s : string) :
  map snd ps = map snd ps' ->
  consensus_of self ps s = consensus_of self ps' s.
Proof.
  intro H.
  pose proof (longs_of_snd s _ _ H) as HL.
  pose proof (shorts_of_snd s _ _ H) as HS.
  assert (Hlen : forall X : list (string * Position.t),
            List.length X = List.length (map snd X))
    by (intro X; now rewrite length_map).
  assert (Hlev : forall X : list (string * Position.t),
            map leverage_of X = map Position.leverage (map snd X))
    by (intro X; now rewrite map_map).
  assert (Hpnl : forall X : list (string * Position.t),
            map pnl_of X = map Position.pnl (map snd X))
    by (intro X; now rewrite map_map).
  unfold consensus_of.
  rewrite !Hlev, !Hpnl.
  rewrite (Hlen (longs_of s ps)), (Hlen (shorts_of s ps)),
    (Hlen (longs_of s ps')), (Hlen (shorts_of s ps')).
  now rewrite HL, HS.
Qed.

Lemma calculate_consensus_snd (self : ConsensusEngine.t)
    (traders traders' : list Trader.t)
    (positions positions' : dict (list Position.t))
    (tracked_symbols : option (list string)) :
  map snd (all_positions positions) = map snd (all_positions positions') ->
  calculate_consensus self traders positions tracked_symbols =
  calculate_consensus self traders' positions' tracked_symbols.
Proof.
  intro H. rewrite !calculate_consensus_eq. do 2 f_equal.
  unfold consensus_records.
  set (ps := all_positions positions) in *.
  set (ps' := all_positions positions') in *.
  assert (HK : map snd (kept tracked_symbols ps) =
               map snd (kept tracked_symbols ps')).
  { unfold kept.
    rewrite !(@filter_on_snd _ _ _
                (fun p => negb (filtered_out tracked_symbols
                                  (Position.symbol p))))
      by reflexivity.
    now rewrite H. }
  assert (Hsym : map symbol_of (kept tracked_symbols ps) =
                 map symbol_of (kept tracked_symbols ps')).
  { change symbol_of with (fun up : string * Position.t =>
                             Position.symbol (snd up)).
    rewrite <- !(map_map snd Position.symbol). now rewrite HK. }
  rewrite Hsym. apply map_ext. intro s. now apply consensus_of_snd.
Qed.

(** X6. The output depends on the sequence of positions only, not on who
    holds them: the counts are counts of positions, and a trader with
    several positions on a symbol is counted as many times. *)
Theorem consensus_ignores_holders (self : ConsensusEngine.t)
    (traders traders' : list Trader.t)
    (positions positions' : dict (list Position.t))
    (tracked_symbols : option (list string)) :
  map snd (all_positions positions) = map snd (all_positions positions') ->
  calculate_consensus self traders positions tracked_symbols =
  calculate_consensus self traders' positions' tracked_symbols.
Proof. apply calculate_consensus_snd. Qed.

(** One trader with two longs on a symbol gives the record of two
    traders with one long each. *)
Lemma consensus_ignores_holders_witness :
  let p := Position.mk "BTCUSDT" "LONG" 100 110 5 0 1 0 in
  calculate_consensus (ConsensusEngine.mk 60) [] [("u1", [p; p])] None =
  calculate_consensus (ConsensusEngine.mk 60) []
    [("u1", [p]); ("u2", [p])] None.
Proof.
  intro p.
  apply (@consensus_ignores_holders (ConsensusEngine.mk 60) [] []
           [("u1", [p; p])] [("u1", [p]); ("u2", [p])] None).
  reflexivity.
Defined.

(** ** The allowlist of the configuration *)

Lemma str_split_nonempty (sep : ascii) (s : string) : str_split sep s <> [].
Proof.
  induction s as [|c s IH]; cbn [str_split]; [discriminate|].
  destruct (Ascii.eqb c sep); [discriminate|].
  destruct (str_split sep s); [congruence | discriminate].
Qed.

(** Joining the pieces with the separator gives the string back. *)
Lemma str_split_join (sep : ascii) (s : string) :
  String.concat (String sep EmptyString) (str_split sep s) = s.
Proof.
  induction s as [|c s IH]; [reflexivity|].
  cbn [str_split].
  pose proof (str_split_nonempty sep s) as Hn.
  destruct (str_split sep s) as [|piece pieces]; [congruence|].
  destruct (Ascii.eqb_spec c sep) as [->|Hne].
  - change (String sep
              (String.concat (String sep EmptyString) (piece :: pieces)) =
            String sep s).
    now rewrite IH.
  - destruct pieces as [|piece' pieces].
    + change (String c piece = String c s).
      change (piece = s) in IH. now rewrite IH.
    + change (String c
                (String.concat (String sep EmptyString)
                   (piece :: piece' :: pieces)) = String c s).
      now rewrite IH.
Qed.

Lemma restricted_consensus (engine : ConsensusEngine.t)
    (traders : list Trader.t) (positions : dict (list Position.t))
    (allow : list string) :
  allow <> [] ->
  calculate_consensus engine traders positions (Some allow) =
  calculate_consensus engine traders (restrict_to allow positions) None.
Proof.
  intro Hne. rewrite !calculate_consensus_eq. unfold consensus_records.
  now rewrite kept_None, all_positions_restrict, kept_allow.
Qed.

(** X9. Whatever the environment, the allowlist of the configuration is not
    empty, so a scan always filters: its consensus is that of the
    positions whose symbol is, character for character, one of the
    configured pieces, and has records for those symbols only. *)
Theorem scan_always_filters (environ : dict string)
    (engine : ConsensusEngine.t) (traders : list Trader.t)
    (positions : dict (list Position.t)) :
  TRACKED_SYMBOLS environ <> [] /\
  scan_consensus environ engine traders positions =
  calculate_consensus engine traders
    (restrict_to (TRACKED_SYMBOLS environ) positions) None /\
  exists out,
    scan_consensus environ engine traders positions = Ok out /\
    Forall (fun c => In (SymbolConsensus.symbol c) (TRACKED_SYMBOLS environ))
           out.
Proof.
  assert (Hne : TRACKED_SYMBOLS environ <> []) by apply str_split_nonempty.
  split; [assumption|]. split.
  - now apply restricted_consensus.
  - unfold scan_consensus. apply calculate_consensus_Forall. intros s Hs.
    rewrite kept_allow in Hs by assumption.
    apply in_map_iff in Hs. destruct Hs as [up [<- Hup]].
    apply filter_In in Hup. cbn. now apply str_in_In.
Qed.

(** X10. Setting the variable to the empty string does not switch the filter
    off: the allowlist is then the list of the empty string, the records
    are on the empty symbol only, and when no position has an empty
    symbol the consensus is empty. *)
Theorem empty_setting_drops_all (environ : dict string)
    (engine : ConsensusEngine.t) (traders : list Trader.t)
    (positions : dict (list Position.t)) :
  dict_get "TRACKED_SYMBOLS" environ = Some "" ->
  TRACKED_SYMBOLS environ = [""] /\
  exists out,
    scan_consensus environ engine traders positions = Ok out /\
    Forall (fun c => SymbolConsensus.symbol c = "") out /\
    ((forall up, In up (all_positions positions) ->
        Position.symbol (snd up) <> "") ->
     out = []).
Proof.
  intro Henv.
  assert (Hts : TRACKED_SYMBOLS environ = [""]).
  { unfold TRACKED_SYMBOLS, getenv. now rewrite Henv. }
  split; [assumption|].
  unfold scan_consensus. rewrite Hts.
  eexists. split; [apply calculate_consensus_eq|].
  assert (Hall : forall c,
    In c (sort_reverse SymbolConsensus.total_count
            (consensus_records engine (Some [""]) positions)) ->
    SymbolConsensus.symbol c = "" /\
    exists up, In up (all_positions positions) /\
               Position.symbol (snd up) = "").
  { intros c Hc. apply sort_reverse_In, consensus_records_In in Hc.
    destruct Hc as [s [Hs ->]].
    rewrite kept_allow in Hs by discriminate.
    apply in_map_iff in Hs. destruct Hs as [up [<- Hup]].
    apply filter_In in Hup. destruct Hup as [Hin Hmem].
    apply str_in_In in Hmem. destruct Hmem as [Hmem|[]].
    cbn [consensus_of SymbolConsensus.symbol].
    split; [now symmetry|]. exists up. split; [assumption | now symmetry]. }
  split.
  - apply Forall_forall. intros c Hc. now apply Hall.
  - intro Hnone.
    destruct (sort_reverse SymbolConsensus.total_count
                (consensus_records engine (Some [""]) positions))
      as [|c l]; [reflexivity|].
    destruct (Hall c (or_introl eq_refl)) as [_ [up [Hin Hs]]].
    exfalso. exact (Hnone up Hin Hs).
Qed.

(** With the variable set to the empty string, a scan of a LONG on
    BTCUSDT has an empty consensus. *)
Lemma empty_setting_drops_all_witness :
  scan_consensus [("TRACKED_SYMBOLS", "")] (ConsensusEngine.mk 60) []
    [("u1", [Position.mk "BTCUSDT" "LONG" 100 110 5 0 1 0])] = Ok [].
Proof.
  destruct (@empty_setting_drops_all [("TRACKED_SYMBOLS", "")]
              (ConsensusEngine.mk 60) []
              [("u1", [Position.mk "BTCUSDT" "LONG" 100 110 5 0 1 0])]
              eq_refl) as [_ [out [Hout [_ Hnil]]]].
  rewrite Hout. f_equal. apply Hnil.
  intros up [<-|[]]. discriminate.
Defined.

(** With the variable unset the allowlist is the ten tickers of line 29,
    and a position on BTCUSDT is dropped while one on BTC is kept. *)
Example default_allowlist_drops_btcusdt :
  TRACKED_SYMBOLS [] =
    ["BTC"; "ETH"; "SOL"; "BNB"; "XRP"; "DOGE"; "TON"; "WLD"; "LINK";
     "MATIC"] /\
  exists c,
    scan_consensus [] (ConsensusEngine.mk 60) []
      [("u1", [Position.mk "BTCUSDT" "LONG" 100 110 5 0 1 0;
               Position.mk "BTC" "LONG" 100 110 5 0 1 0])] = Ok [c] /\
    SymbolConsensus.symbol c = "BTC" /\
    SymbolConsensus.total_count c = 1%nat.
Proof.
  split; [reflexivity|].
  eexists. split; [vm_compute; reflexivity|]. now split.
Qed.

(** X11. No piece of the allowlist holds a comma, and the pieces joined by
    commas are the configured string: nothing is trimmed or dropped, so a
    piece matches a symbol only if it is the symbol to the character. *)
Theorem tracked_symbols_pieces (environ : dict string) :
  String.concat "," (TRACKED_SYMBOLS environ) =
    getenv environ "TRACKED_SYMBOLS"
      "BTC,ETH,SOL,BNB,XRP,DOGE,TON,WLD,LINK,MATIC" /\
  Forall (fun piece => ~ In ","%char (list_ascii_of_string piece))
         (TRACKED_SYMBOLS environ).
Proof.
  split; [apply str_split_join|].
  unfold TRACKED_SYMBOLS.
  generalize (getenv environ "TRACKED_SYMBOLS"
                "BTC,ETH,SOL,BNB,XRP,DOGE,TON,WLD,LINK,MATIC").
  intro s. induction s as [|c s IH]; cbn [str_split].
  - constructor; [intros []|constructor].
  - pose proof (str_split_nonempty ","%char s) as Hn.
    destruct (str_split ","%char s) as [|piece pieces]; [congruence|].
    destruct (Ascii.eqb_spec c ","%char) as [->|Hne].
    + constructor; [intros []|assumption].
    + inversion IH as [|x l Hpiece Hrest]; subst.
      constructor; [|assumption].
      cbn [list_ascii_of_string]. intros [Hc|Hin]; [congruence|].
      now apply Hpiece.
Qed.

(** ** The scraper's dictionary of positions *)

Lemma dict_set_keys (V : Type) (k : string) (v : V) (d : dict V) :
  keys (dict_set k v d) =
  if str_in k (keys d) then keys d else keys d ++ [k].
Proof.
  unfold keys. induction d as [|[k' v'] d IH]; [reflexivity|].
  cbn [dict_set map fst str_in existsb]. fold (str_in k (map fst d)).
  destruct (String.eqb k k') eqn:E; cbn [orb map fst]; [reflexivity|].
  rewrite IH. now destruct (str_in k (map fst d)).
Qed.

Lemma dict_set_In (V : Type) (k k' : string) (v v' : V) (d : dict V) :
  In (k', v') (dict_set k v d) -> (k' = k /\ v' = v) \/ In (k', v') d.
Proof.
  induction d as [|[k0 v0] d IH]; cbn [dict_set].
  - intros [H|[]]. injection H as <- <-. now left.
  - destruct (String.eqb k k0) eqn:E.
    + apply String.eqb_eq in E. subst k0.
      intros [H|H]; [injection H as <- <-; now left | right; now right].
    + intros [H|H]; [right; now left|].
      destruct (IH H); [now left | right; now right].
Qed.

Lemma dict_set_NoDup (V : Type) (k : string) (v : V) (d : dict V) :
  NoDup (keys d) -> NoDup (keys (dict_set k v d)).
Proof.
  intro Hnd. rewrite dict_set_keys.
  destruct (str_in k (keys d)) eqn:E; [assumption|].
  apply str_in_not_In in E.
  apply NoDup_app; [assumption | repeat constructor; intros [] | ].
  intros a Ha [<-|[]]. contradiction.
Qed.

Lemma dict_set_key_kept (V : Type) (k k' : string) (v : V) (d : dict V) :
  In k' (keys d) \/ k' = k -> In k' (keys (dict_set k v d)).
Proof.
  rewrite dict_set_keys. intros [H| ->].
  - destruct (str_in k (keys d)); [assumption|].
    apply in_or_app. now left.
  - destruct (str_in k (keys d)) eqn:E; [now apply str_in_In|].
    apply in_or_app. right. now left.
Qed.

Section Scraper.
Variable answer : nat -> string -> list Position.t.

Lemma get_all_positions_from_ok (n : nat) (rest prefix : list Trader.t)
    (st : dict (list Position.t) * nat) :
  collected_ok answer (prefix ++ rest) (List.length prefix) (fst st) ->
  collected_ok answer (prefix ++ rest) (List.length (prefix ++ rest))
    (fst (get_all_positions_from answer n (List.length prefix) rest st)).
Proof.
  revert prefix st. induction rest as [|trader rest IH]; intros prefix st Hok.
  - now rewrite app_nil_r in *.
  - cbn [get_all_positions_from].
    set (uid := Trader.encrypted_uid trader).
    set (positions := answer (List.length prefix) uid).
    assert (Hnth : nth_error (prefix ++ trader :: rest) (List.length prefix)
                   = Some trader).
    { rewrite nth_error_app2 by lia. now rewrite Nat.sub_diag. }
    assert (Heq : prefix ++ trader :: rest = (prefix ++ [trader]) ++ rest)
      by now rewrite <- app_assoc.
    assert (Hlen : S (List.length prefix) = List.length (prefix ++ [trader]))
      by (rewrite length_app; cbn; lia).
    rewrite Heq, Hlen. apply IH. rewrite <- Heq, <- Hlen. cbn [fst].
    destruct Hok as [Hnd [Hval Hkey]].
    destruct (truthy positions) eqn:Et.
    + split; [now apply dict_set_NoDup|]. split.
      * intros k v Hin. apply dict_set_In in Hin.
        destruct Hin as [[-> ->]|Hin]; [|now apply Hval].
        split; [intro He; rewrite He in Et; discriminate|].
        exists (List.length prefix), trader. auto.
      * intros j trader' Hj Hn Hans.
        apply dict_set_key_kept.
        destruct (Nat.eq_dec j (List.length prefix)) as [->|Hne].
        -- right. rewrite Hnth in Hn. now injection Hn as <-.
        -- left. apply (Hkey j trader'); [lia | assumption..].
    + split; [assumption|]. split; [assumption|].
      intros j trader' Hj Hn Hans.
      destruct (Nat.eq_dec j (List.length prefix)) as [->|Hne].
      * rewrite Hnth in Hn. injection Hn as <-.
        fold uid positions in Hans.
        destruct positions; [congruence | discriminate].
      * apply (Hkey j trader'); [lia | assumption..].
Qed.

Lemma get_all_positions_from_sleeps (n i : nat) (rest : list Trader.t)
    (st : dict (list Position.t) * nat) :
  (i + List.length rest = n)%nat ->
  snd (get_all_positions_from answer n i rest st) =
  (snd st + (List.length rest - 1))%nat.
Proof.
  revert i st. induction rest as [|trader rest IH]; intros i st Hn.
  - cbn. lia.
  - cbn [get_all_positions_from]. rewrite IH by (cbn in Hn; lia).
    cbn [snd List.length] in *.
    destruct (Z.ltb_spec (Z.of_nat i) (Z.of_nat n - 1)); lia.
Qed.

(** X12. The dictionary that [get_all_positions] returns has each uid once,
    maps a uid only to a non-empty answer given for a trader of the list
    with that uid, and has the uid of every trader whose answer was not
    empty; [time.sleep] is called once between two traders, so one time
    fewer than there are traders and not at all for an empty list. *)
Theorem get_all_positions_dict (traders : list Trader.t) :
  let d := fst (get_all_positions answer traders) in
  NoDup (keys d) /\
  (forall k v, In (k, v) d ->
     v <> [] /\
     exists j trader,
       nth_error traders j = Some trader /\
       Trader.encrypted_uid trader = k /\ answer j k = v) /\
  (forall j trader,
     nth_error traders j = Some trader ->
     answer j (Trader.encrypted_uid trader) <> [] ->
     In (Trader.encrypted_uid trader) (keys d)) /\
  snd (get_all_positions answer traders) = (List.length traders - 1)%nat.
Proof.
  intro d. unfold d, get_all_positions.
  pose proof (@get_all_positions_from_ok (List.length traders) traders []
                ([], 0%nat)) as H.
  cbn [app List.length fst] in H.
  destruct H as [Hnd [Hval Hkey]].
  { split; [constructor|]. split; [intros k v []|]. intros j t Hj. lia. }
  split; [assumption|]. split; [assumption|]. split.
  - intros j trader Hn Hans. apply (Hkey j trader); try assumption.
    apply nth_error_Some. congruence.
  - now rewrite get_all_positions_from_sleeps.
Qed.
End Scraper.

(** ** Sums *)

Lemma fold_left_Qplus (l : list Q) (a : Q) :
  fold_left Qplus l a == a + fold_left Qplus l 0.
Proof.
  revert a. induction l as [|x l IH]; intro a; cbn [fold_left]; [ring|].
  rewrite (IH (a + x)), (IH (0 + x)). ring.
Qed.

Lemma sum_cons (x : Q) (l : list Q) : sum (x :: l) == x + sum l.
Proof.
  unfold sum. cbn [fold_left]. rewrite fold_left_Qplus. ring.
Qed.



Lemma sum_nonneg (l : list Q) : Forall (fun x => 0 <= x) l -> 0 <= sum l.
Proof.
  induction 1 as [|x l Hx _ IH]; [apply Qle_refl|].
  rewrite sum_cons. lra.
Qed.

Lemma sum_pos (l : list Q) :
  l <> [] -> Forall (fun x => 0 < x) l -> 0 < sum l.
Proof.
  intros Hne H. destruct H as [|x l Hx Hl]; [congruence|].
  rewrite sum_cons.
  assert (0 <= sum l).
  { apply sum_nonneg. revert Hl. apply Forall_impl. intros; lra. }
  lra.
Qed.

Lemma sum_nonpos (l : list Q) : Forall (fun x => x <= 0) l -> sum l <= 0.
Proof.
  induction 1 as [|x l Hx _ IH]; [apply Qle_refl|].
  rewrite sum_cons. lra.
Qed.

(** A sum is at least the number of terms times a lower bound of them. *)
Lemma sum_lower_bound (m : Q) (l : list Q) :
  Forall (fun x => m <= x) l -> m * Q_of_nat (List.length l) <= sum l.
Proof.
  induction 1 as [|x l Hx _ IH].
  - change (m * 0 <= 0). lra.
  - rewrite sum_cons. cbn [List.length].
    replace (S (List.length l)) with (1 + List.length l)%nat by reflexivity.
    rewrite Q_of_nat_add. change (Q_of_nat 1) with 1. lra.
Qed.

(** Non-positive terms that add up to zero are all zero. *)
Lemma sum_nonpos_zero (l : list Q) :
  Forall (fun x => x <= 0) l -> sum l == 0 -> Forall (fun x => x == 0) l.
Proof.
  induction 1 as [|x l Hx Hl IH]; intro Hs; [constructor|].
  rewrite sum_cons in Hs. pose proof (sum_nonpos Hl) as Hn.
  constructor; [lra|]. apply IH. lra.
Qed.

Lemma mean_pnl_times_count (ts : list Trade.t) :
  mean_pnl ts * Q_of_nat (List.length ts) == sum (map Trade.pnl ts).
Proof.
  destruct ts as [|t ts].
  - unfold sum. cbn. ring.
  - unfold mean_pnl. field. apply Q_of_nat_nonzero. discriminate.
Qed.

(** ** Invariants of the metrics *)

(** The closed form of the metrics, for every list of trades. *)
Lemma calculate_metrics_cases (self : Backtester.t) (trades : list Trade.t) :
  let winning := filter (fun t => Qgtb (Trade.pnl t) 0) trades in
  let losing := filter (fun t => Qle_bool (Trade.pnl t) 0) trades in
  exists win_rate,
    _calculate_metrics self trades =
    Ok (BacktestResult.mk (List.length trades) (List.length winning)
          (List.length losing) win_rate (sum (map Trade.pnl trades))
          (mean_pnl winning) (mean_pnl losing)
          (fst (fold_left drawdown_step trades (0, 0))) trades) /\
    (trades = [] -> win_rate = 0) /\
    (trades <> [] ->
     win_rate =
     Q_of_nat (List.length winning) / Q_of_nat (List.length trades) * 100).
Proof.
  intros winning losing. destruct trades as [|t ts].
  - exists 0. split; [reflexivity|]. split; [reflexivity | congruence].
  - exists (Q_of_nat (List.length winning) /
            Q_of_nat (List.length (t :: ts)) * 100).
    subst winning losing. split.
    + apply calculate_metrics_eq. discriminate.
    + split; [discriminate | reflexivity].
Qed.

(** X13. Every trade is a winner or a loser, never both: the two counts add up
    to [total_trades], which is the length of the list, and the result
    carries the list unchanged. *)
Theorem metrics_counts (self : Backtester.t) (trades : list Trade.t) :
  exists r,
    _calculate_metrics self trades = Ok r /\
    BacktestResult.total_trades r = List.length trades /\
    (BacktestResult.winning_trades r + BacktestResult.losing_trades r)%nat =
      BacktestResult.total_trades r /\
    BacktestResult.trades r = trades.
Proof.
  destruct (calculate_metrics_cases self trades) as [w [Hr _]].
  eexists. split; [exact Hr|]. cbn.
  split; [reflexivity|]. split; [|reflexivity].
  rewrite <- length_app.
  apply Permutation_length, winners_losers_partition.
Qed.


Lemma sum_upper_bound (m : Q) (l : list Q) :
  Forall (fun x => x <= m) l -> sum l <= m * Q_of_nat (List.length l).
Proof.
  induction 1 as [|x l Hx _ IH].
  - change (0 <= m * 0). lra.
  - rewrite sum_cons. cbn [List.length].
    replace (S (List.length l)) with (1 + List.length l)%nat by reflexivity.
    rewrite Q_of_nat_add. change (Q_of_nat 1) with 1. lra.
Qed.

Lemma Forall_pnl (P : Q -> Prop) (ts : list Trade.t) :
  (forall t, In t ts -> P (Trade.pnl t)) -> Forall P (map Trade.pnl ts).
Proof.
  intro H. apply Forall_forall. intros x Hx.
  apply in_map_iff in Hx. destruct Hx as [t [<- Ht]]. now apply H.
Qed.

Lemma mean_pnl_lower (m : Q) (ts : list Trade.t) :
  ts <> [] -> (forall t, In t ts -> m <= Trade.pnl t) -> m <= mean_pnl ts.
Proof.
  intros Hne H. destruct ts as [|t ts]; [congruence|].
  unfold mean_pnl.
  apply Qle_shift_div_l; [apply Q_of_nat_pos; discriminate|].
  rewrite <- (length_map Trade.pnl). apply sum_lower_bound.
  now apply Forall_pnl.
Qed.

Lemma mean_pnl_upper (m : Q) (ts : list Trade.t) :
  ts <> [] -> (forall t, In t ts -> Trade.pnl t <= m) -> mean_pnl ts <= m.
Proof.
  intros Hne H. destruct ts as [|t ts]; [congruence|].
  unfold mean_pnl.
  apply Qle_shift_div_r; [apply Q_of_nat_pos; discriminate|].
  rewrite <- (length_map Trade.pnl). apply sum_upper_bound.
  now apply Forall_pnl.
Qed.


Lemma losers_In (trades : list Trade.t) (t : Trade.t) :
  In t (filter (fun t => Qle_bool (Trade.pnl t) 0) trades) <->
  In t trades /\ loser t.
Proof. rewrite filter_In, loser_iff. tauto. Qed.


(** ** The order of the trades *)






(** ** Lists of winners *)

(** X17. When every trade of a non-empty list has made money, all are winners,
    the win rate is 100, the average profit is positive, and the average
    loss and the drawdown are 0. *)
Theorem metrics_all_winning (self : Backtester.t) (trades : list Trade.t) :
  trades <> [] ->
  (forall t, In t trades -> 0 < Trade.pnl t) ->
  exists r,
    _calculate_metrics self trades = Ok r /\
    BacktestResult.winning_trades r = List.length trades /\
    BacktestResult.losing_trades r = 0%nat /\
    BacktestResult.win_rate r == 100 /\
    0 < BacktestResult.avg_profit r /\
    BacktestResult.avg_loss r == 0 /\
    BacktestResult.max_drawdown r == 0.
Proof.
  intros Hne Hall.
  destruct (calculate_metrics_cases self trades) as [w [Hr [_ Hw]]].
  assert (HW : filter (fun t => Qgtb (Trade.pnl t) 0) trades = trades).
  { apply filter_all. intros t Ht. apply winner_iff. now apply Hall. }
  assert (HL : filter (fun t => Qle_bool (Trade.pnl t) 0) trades = []).
  { apply filter_none. intros t Ht.
    destruct (Qle_bool (Trade.pnl t) 0) eqn:E; [|reflexivity].
    apply loser_iff in E. unfold loser in E. specialize (Hall t Ht). lra. }
  rewrite HW, HL in Hr. rewrite HW in Hw.
  eexists. split; [exact Hr|]. cbn.
  assert (Hlen : ~ Q_of_nat (List.length trades) == 0).
  { apply Q_of_nat_nonzero. now destruct trades. }
  split; [reflexivity|]. split; [reflexivity|].
  split; [rewrite Hw by assumption; now field|].
  split; [|split; [reflexivity|]].
  - destruct trades as [|t ts]; [congruence|]. unfold mean_pnl.
    apply Qlt_shift_div_l; [apply Q_of_nat_pos; discriminate|].
    rewrite Qmult_0_l. apply sum_pos; [discriminate|].
    now apply Forall_pnl.
  - destruct (drawdown_loop trades 0 0) as [_ [_ Hatt]]. cbn zeta in Hatt.
    destruct Hatt as [->|[t [Hin [Hl _]]]]; [reflexivity|].
    unfold loser in Hl. specialize (Hall t Hin). lra.
Qed.

(** Two winners. *)
Lemma metrics_all_winning_witness :
  let tr := fun pnl => Trade.mk "BTCUSDT" "LONG" 100 110 0 0 pnl 0 "BUY" in
  exists r,
    _calculate_metrics (Backtester.init 60) [tr 10; tr 3] = Ok r /\
    BacktestResult.win_rate r == 100 /\
    BacktestResult.max_drawdown r == 0.
Proof.
  intro tr.
  destruct (@metrics_all_winning (Backtester.init 60) [tr 10; tr 3])
    as [r [Hr [_ [_ [Hw [_ [_ Hd]]]]]]].
  - discriminate.
  - intros t [<-|[<-|[]]]; unfold tr; cbn; lra.
  - exists r. auto.
Defined.

(** ** The risk/reward line of the report *)

Lemma mean_pnl_losers_zero (trades : list Trade.t) :
  mean_pnl (filter (fun t => Qle_bool (Trade.pnl t) 0) trades) == 0 <->
  (forall t, In t trades -> 0 <= Trade.pnl t).
Proof.
  set (L := filter (fun t => Qle_bool (Trade.pnl t) 0) trades).
  assert (HL : forall t, In t L -> Trade.pnl t <= 0).
  { intros t Ht. apply losers_In in Ht. now destruct Ht. }
  split.
  - intros Hz t Hin.
    destruct (Qlt_le_dec 0 (Trade.pnl t)) as [Hpos|Hneg]; [lra|].
    assert (HtL : In t L) by (apply losers_In; now split).
    assert (Hsum : sum (map Trade.pnl L) == 0).
    { rewrite <- mean_pnl_times_count, Hz. ring. }
    apply sum_nonpos_zero in Hsum; [|now apply Forall_pnl].
    rewrite Forall_forall in Hsum.
    rewrite (Hsum (Trade.pnl t)); [apply Qle_refl | now apply in_map].
  - intro Hall. destruct L as [|t L'] eqn:EL; [reflexivity|].
    rewrite <- EL in *. apply Qle_antisym.
    + apply mean_pnl_upper; [rewrite EL; discriminate | assumption].
    + apply mean_pnl_lower; [rewrite EL; discriminate|].
      intros t' Ht'. apply Hall. apply losers_In in Ht'. now destruct Ht'.
Qed.

(** X18. The metrics of any list of trades can be reported: the ratio of the
    report is computed without a division by zero; it is shown exactly
    when some trade has lost money, and is then the magnitude of average
    profit over average loss. *)
Theorem report_risk_reward (self : Backtester.t) (trades : list Trade.t) :
  exists r rr,
    _calculate_metrics self trades = Ok r /\
    risk_reward r = Ok rr /\
    (rr = None <-> forall t, In t trades -> 0 <= Trade.pnl t) /\
    (forall q, rr = Some q ->
       q = Qabs (BacktestResult.avg_profit r / BacktestResult.avg_loss r)).
Proof.
  destruct (calculate_metrics_cases self trades) as [w [Hr _]].
  match type of Hr with _ = Ok ?r => exists r end.
  unfold risk_reward.
  cbn [BacktestResult.avg_loss BacktestResult.avg_profit].
  set (al := mean_pnl (filter (fun t => Qle_bool (Trade.pnl t) 0) trades)).
  pose proof (mean_pnl_losers_zero trades) as Hz. fold al in Hz.
  destruct (Qeq_bool al 0) eqn:E; cbn [negb].
  - exists None. split; [exact Hr|].
    split; [reflexivity|]. split; [|discriminate].
    apply Qeq_bool_iff in E. tauto.
  - assert (Hnz : ~ al == 0).
    { intro H. apply Qeq_bool_iff in H. congruence. }
    rewrite truediv_ok by assumption. cbn [bind].
    eexists. split; [exact Hr|].
    split; [reflexivity|]. split.
    + split; [discriminate|]. intro H. apply Hz in H. contradiction.
    + intros q Hq. injection Hq as <-. reflexivity.
Qed.

(** ** Runs over several scenarios *)

Lemma run_scenarios_ok (self : Backtester.t) (scenarios : list TestScenario.t)
    (tss : list (list Trade.t)) (acc : list Trade.t) :
  Forall2 (fun sc ts => run_scenario self sc = Ok ts) scenarios tss ->
  run_scenarios self scenarios acc = Ok (acc ++ List.concat tss).
Proof.
  intro H. revert acc.
  induction H as [|sc ts scenarios tss Hsc _ IH]; intro acc.
  - cbn. now rewrite app_nil_r.
  - cbn [run_scenarios List.concat]. rewrite Hsc. cbn [bind].
    now rewrite IH, app_assoc.
Qed.

Lemma run_scenarios_raise (self : Backtester.t)
    (before after : list TestScenario.t) (sc : TestScenario.t) (e : exn)
    (acc : list Trade.t) :
  Forall (fun sc' => exists ts, run_scenario self sc' = Ok ts) before ->
  run_scenario self sc = Raise e ->
  run_scenarios self (before ++ sc :: after) acc = Raise e.
Proof.
  intros Hb Hsc. revert acc.
  induction Hb as [|sc' before [ts Hts] _ IH]; intro acc.
  - cbn [app run_scenarios]. now rewrite Hsc.
  - cbn [app run_scenarios]. rewrite Hts. cbn [bind]. apply IH.
Qed.

(** X19. A run over several scenarios computes the metrics of the trades of
    the scenarios put end to end, in the order of the scenarios, when
    each scenario returns its trades; and it raises, giving no result,
    when a scenario raises after others have returned. *)
Theorem run_all_scenarios_concat (self : Backtester.t)
    (scenarios : list TestScenario.t) :
  (forall tss,
     Forall2 (fun sc ts => run_scenario self sc = Ok ts) scenarios tss ->
     run_all_scenarios self scenarios =
       _calculate_metrics self (List.concat tss) /\
     exists r,
       run_all_scenarios self scenarios = Ok r /\
       BacktestResult.trades r = List.concat tss /\
       BacktestResult.total_trades r =
         list_sum (map (@List.length Trade.t) tss)) /\
  (forall before sc after e,
     scenarios = before ++ sc :: after ->
     Forall (fun sc' => exists ts, run_scenario self sc' = Ok ts) before ->
     run_scenario self sc = Raise e ->
     run_all_scenarios self scenarios = Raise e).
Proof.
  split.
  - intros tss H. unfold run_all_scenarios.
    rewrite (run_scenarios_ok self [] H). cbn [bind app].
    split; [reflexivity|].
    destruct (calculate_metrics_cases self (List.concat tss)) as [w [Hr _]].
    eexists. split; [exact Hr|]. cbn. split; [reflexivity|].
    clear. induction tss as [|ts tss IH]; [reflexivity|].
    cbn [List.concat map]. rewrite length_app, IH. reflexivity.
  - intros before sc after e -> Hb Hsc. unfold run_all_scenarios.
    now rewrite (@run_scenarios_raise self before after sc e [] Hb Hsc).
Qed.

(** The bull run gives one trade and the mixed scenario none. *)
Lemma run_all_scenarios_concat_witness :
  exists r,
    run_all_scenarios (Backtester.init 60)
      [get_scenario_1_btc_bull_run; get_scenario_3_mixed_signals] = Ok r /\
    BacktestResult.total_trades r = 1%nat.
Proof.
  assert (H1 : exists ts, run_scenario (Backtester.init 60)
                            get_scenario_1_btc_bull_run = Ok ts /\
                          List.length ts = 1%nat).
  { eexists. split; [vm_compute; reflexivity | reflexivity]. }
  assert (H3 : run_scenario (Backtester.init 60)
                 get_scenario_3_mixed_signals = Ok []).
  { vm_compute. reflexivity. }
  destruct H1 as [ts [H1 Hlen]].
  destruct (run_all_scenarios_concat (Backtester.init 60)
              [get_scenario_1_btc_bull_run; get_scenario_3_mixed_signals])
    as [Hok _].
  destruct (Hok [ts; []]) as [_ [r [Hr [_ Htot]]]].
  { constructor; [exact H1|]. constructor; [exact H3|]. constructor. }
  exists r. split; [exact Hr|]. rewrite Htot. cbn. rewrite Hlen. reflexivity.
Defined.

(** ** What a scenario run reads *)

Lemma all_positions_converted (scenario : TestScenario.t) :
  map snd (all_positions (snd (convert_scenario scenario))) =
  map convert_position (listed_positions scenario).
Proof.
  rewrite convert_scenario_eq. cbn [snd].
  unfold listed_positions, all_positions.
  induction (first_seen
               (map MockTrader.encrypted_uid (TestScenario.traders scenario)))
    as [|uid ks IH]; [reflexivity|].
  cbn [filter flat_map]. rewrite map_app, <- IH.
  destruct (truthy (converted scenario uid)) eqn:Et.
  - cbn [map flat_map fst snd]. rewrite map_app, map_map. cbn [snd].
    rewrite map_id. reflexivity.
  - fold (converted scenario uid).
    destruct (converted scenario uid); [reflexivity | discriminate].
Qed.

Lemma make_trades_ext (date : Z) (positions positions' : dict (list Position.t))
    (cs : list SymbolConsensus.t) (acc : list Trade.t) :
  (forall s, symbol_positions_of positions s =
             symbol_positions_of positions' s) ->
  make_trades date positions cs acc = make_trades date positions' cs acc.
Proof.
  intro H. revert acc. induction cs as [|c cs IH]; intro acc; [reflexivity|].
  cbn [make_trades]. rewrite H.
  destruct (negb (truthy (symbol_positions_of positions'
                            (SymbolConsensus.symbol c)))); [apply IH|].
  destruct (truediv _ _) as [e|]; [|reflexivity]. cbn [bind].
  destruct (truediv _ _) as [x|]; [|reflexivity]. cbn [bind].
  destruct (trade_direction _ e x) as [[[[side pnl] pct]|]|]; cbn [bind];
    [apply IH | apply IH | reflexivity].
Qed.

(** X20. The trades of a scenario depend on its date and on the positions of
    its listed traders only: positions filed under a uid that is not
    listed, a trader listed twice, a trader without positions and the
    traders' names, ranks and rates change nothing. *)
Theorem run_scenario_listed_only (self : Backtester.t)
    (scenario scenario' : TestScenario.t) :
  TestScenario.date scenario = TestScenario.date scenario' ->
  listed_positions scenario = listed_positions scenario' ->
  run_scenario self scenario = run_scenario self scenario'.
Proof.
  intros Hdate Hlisted. unfold run_scenario.
  rewrite (@calculate_consensus_snd (Backtester.engine self)
             (fst (convert_scenario scenario))
             (fst (convert_scenario scenario'))
             (snd (convert_scenario scenario))
             (snd (convert_scenario scenario')) None)
    by now rewrite !all_positions_converted, Hlisted.
  destruct (calculate_consensus _ _ _ _) as [out|e]; [|reflexivity].
  cbn [bind]. rewrite Hdate. apply make_trades_ext.
  intro s. rewrite !symbol_positions_converted. unfold positions_on.
  now rewrite Hlisted.
Qed.

(** The bull run with its first trader listed twice, a trader without
    positions and positions under an unlisted uid gives the trades of the
    bull run. *)
Lemma run_scenario_listed_only_witness :
  let sc := get_scenario_1_btc_bull_run in
  let sc' :=
    TestScenario.mk "Noisy" "" 0
      (TestScenario.traders sc ++
       [MockTrader.mk "t1" "Again" 9 0 0; MockTrader.mk "t8" "Idle" 8 0 0])
      (TestScenario.positions sc ++
       [("t9", [MockPosition.mk "BTCUSDT" "SHORT" 1 2 0 0 0])])
      [] in
  run_scenario (Backtester.init 60) sc' = run_scenario (Backtester.init 60) sc.
Proof.
  intros sc sc'.
  apply (@run_scenario_listed_only (Backtester.init 60) sc' sc);
    reflexivity.
Defined.

(** ** Lowering the threshold *)

(** X8. An engine with a lower threshold keeps every actionable signal
    actionable, and every BUY or STRONG_BUY in the BUY family. *)
Theorem lower_threshold_keeps_signals (low high : ConsensusEngine.t)
    (long_percent short_percent : Q) :
  ConsensusEngine.min_consensus low <= ConsensusEngine.min_consensus high ->
  (actionable (_get_signal high long_percent short_percent) = true ->
   actionable (_get_signal low long_percent short_percent) = true) /\
  (In (_get_signal high long_percent short_percent) ["STRONG_BUY"; "BUY"] ->
   In (_get_signal low long_percent short_percent) ["STRONG_BUY"; "BUY"]).
Proof.
  intro Hle. unfold _get_signal.
  destruct (Qgeb long_percent 70) eqn:E1; [split; intros; [reflexivity | now left]|].
  destruct (Qgeb long_percent (ConsensusEngine.min_consensus high)) eqn:E2.
  - assert (E2' : Qgeb long_percent (ConsensusEngine.min_consensus low)
                  = true).
    { apply Qgeb_true. apply Qgeb_true in E2. lra. }
    rewrite E2'. split; intros; [reflexivity | right; now left].
  - destruct (Qgeb long_percent (ConsensusEngine.min_consensus low));
      [split; intros; [reflexivity | right; now left]|].
    destruct (Qgeb short_percent 70) eqn:E3;
      [split; [reflexivity | intros [H|[H|[]]]; discriminate H]|].
    destruct (Qgeb short_percent (ConsensusEngine.min_consensus high))
      eqn:E4.
    + assert (E4' : Qgeb short_percent (ConsensusEngine.min_consensus low)
                    = true).
      { apply Qgeb_true. apply Qgeb_true in E4. lra. }
      rewrite E4'. split; [reflexivity | intros [H|[H|[]]]; discriminate H].
    + split; [discriminate | intros [H|[H|[]]]; discriminate H].
Qed.

(** A 65/35 record is a BUY at threshold 65 and stays one at 60. *)
Lemma lower_threshold_keeps_signals_witness :
  _get_signal (ConsensusEngine.mk 65) 65 35 = "BUY" /\
  In (_get_signal (ConsensusEngine.mk 60) 65 35) ["STRONG_BUY"; "BUY"].
Proof.
  split; [reflexivity|].
  destruct (@lower_threshold_keeps_signals (ConsensusEngine.mk 60)
              (ConsensusEngine.mk 65) 65 35) as [_ H].
  - cbn. lra.
  - apply H. right. now left.
Defined.

(** The direction may change: 45/55 is a SELL at threshold 55 and a BUY
    at threshold 45. *)
Example lower_threshold_turns_sell_into_buy :
  _get_signal (ConsensusEngine.mk 55) 45 55 = "SELL" /\
  _get_signal (ConsensusEngine.mk 45) 45 55 = "BUY".
Proof. split; reflexivity. Qed.

(** ** A record and the positions of its symbol *)

Lemma filter_and_left (A : Type) (g h : A -> bool) (l : list A) :
  filter (fun x => g x && h x) (filter g l) = filter (fun x => g x && h x) l.
Proof.
  induction l as [|a l IH]; [reflexivity|].
  cbn [filter]. destruct (g a) eqn:E; cbn [filter andb]; rewrite ?E;
    cbn [andb]; now rewrite IH.
Qed.

Lemma filter_swap (A : Type) (f g : A -> bool) (l : list A) :
  filter f (filter g l) = filter g (filter f l).
Proof.
  induction l as [|a l IH]; [reflexivity|].
  cbn [filter]. destruct (f a) eqn:Ef, (g a) eqn:Eg; cbn [filter];
    rewrite ?Ef, ?Eg; now rewrite IH.
Qed.

Lemma consensus_of_own (self : ConsensusEngine.t)
    (ps : list (string * Position.t)) (s : string) :
  consensus_of self (filter (on_symbol s) ps) s = consensus_of self ps s.
Proof.
  unfold consensus_of, longs_of, shorts_of.
  now rewrite !filter_and_left.
Qed.

Lemma first_seen_constant (s : string) (l : list string) :
  l <> [] -> (forall x, In x l -> x = s) -> first_seen l = [s].
Proof.
  intros Hne Hall. induction l as [|a l IH]; [congruence|].
  cbn [first_seen]. rewrite (Hall a) by now left. f_equal.
  destruct l as [|b l]; [reflexivity|].
  rewrite IH; [|discriminate | intros x Hx; apply Hall; now right].
  cbn [filter]. now rewrite String.eqb_refl.
Qed.

Lemma kept_restrict_one (tracked : option (list string))
    (positions : dict (list Position.t)) (s : string) :
  kept tracked (all_positions (restrict_to [s] positions)) =
  filter (on_symbol s) (kept tracked (all_positions positions)).
Proof.
  rewrite all_positions_restrict. unfold kept. rewrite filter_swap.
  apply filter_ext. intro up.
  unfold str_in, on_symbol. cbn [existsb]. apply orb_false_r.
Qed.

(** X7. A record depends on the positions of its own symbol only: the
    consensus of the snapshot without the positions on other symbols is
    that record alone. *)
Theorem record_of_own_symbol (self : ConsensusEngine.t)
    (traders : list Trader.t) (positions : dict (list Position.t))
    (tracked_symbols : option (list string)) :
  exists out,
    calculate_consensus self traders positions tracked_symbols = Ok out /\
    Forall
      (fun c =>
         calculate_consensus self traders
           (restrict_to [SymbolConsensus.symbol c] positions) tracked_symbols
         = Ok [c])
      out.
Proof.
  apply calculate_consensus_Forall. intros s Hs.
  cbn [consensus_of SymbolConsensus.symbol].
  rewrite calculate_consensus_eq. f_equal. unfold consensus_records.
  rewrite kept_restrict_one.
  set (ps := kept tracked_symbols (all_positions positions)) in *.
  rewrite (@first_seen_constant s).
  - cbn [map sort_reverse fold_right insert_desc].
    now rewrite consensus_of_own.
  - apply in_map_iff in Hs. destruct Hs as [up [Hup Hin]].
    assert (Hf : In up (filter (on_symbol s) ps)).
    { apply filter_In. split; [assumption|]. now apply String.eqb_eq. }
    destruct (filter (on_symbol s) ps); [contradiction | discriminate].
  - intros x Hx. apply in_map_iff in Hx. destruct Hx as [up [<- Hup]].
    apply filter_In in Hup. destruct Hup as [_ Hup].
    now apply String.eqb_eq in Hup.
Qed.
